(** * dd-trace-py: Elasticsearch transport instrumentation and CI source-file metadata

    A shallow embedding of

    - [ddtrace/contrib/internal/elasticsearch/patch.py]: the patch-state
      tracker ([_patch], [_unpatch]), the shared generator-shaped span
      enrichment routine ([_get_perform_request_coro]) and the two adapters
      that drive it ([_get_perform_request], [_get_perform_request_async]);
    - [ddtrace/ext/ci_visibility/_ci_visibility_base.py]: the validated value
      object [CISourceFileInfoBase].

    Python objects are values of [pyval]; raising is the [Raise] branch of
    [result]; the operations the code performs on its collaborators (tracer,
    span, logger, wrapped function) are recorded, in program order, as a list
    of [event]s. *)

From Stdlib Require Import ZArith Ascii DecimalString.
From stdpp Require Import base option list strings gmap.

Local Open Scope string_scope.
Local Open Scope list_scope.
Local Open Scope stdpp_scope.
Set Warnings "-register-all".

(** ** Python values, exceptions and outcomes *)

Module Py.

(** Outcome of evaluating an expression: a value or a raised exception. *)
Inductive result (E A : Type) : Type :=
| Return (a : A)
| Raise (e : E).
Arguments Return {E A} a.
Arguments Raise {E A} e.

(** Exception classes the code distinguishes.  [TransportError] stands for
    [transport.TransportError] and its subclasses (what
    [except transport.TransportError] matches); [BaseExceptionOnly] for
    classes outside [Exception] (what [except Exception] does not match). *)
Inductive exn_class : Type :=
| ValueError
| AttributeError
| TypeError
| TransportError
| OtherException (name : string)
| BaseExceptionOnly (name : string).

(** POSIX [pathlib.Path]: rooted or not, and its components. *)
Record Path : Type := MkPath { anchored : bool; parts : list string }.

Inductive pyval : Type :=
| VNone
| VBool (b : bool)
| VInt (n : Z)
| VStr (s : string)
| VTuple (items : list pyval)
| VNamedTuple (fields : list (string * pyval))
| VDict (items : list (string * pyval))
| VPath (p : Path)
| VType (name : string)
| VObject (cls : string) (attrs : list (string * pyval))
| VAwaitable (o : result pyexn pyval)
with pyexn : Type :=
| MkExn (cls : exn_class) (oid : nat) (args : list pyval)
        (attrs : list (string * pyval)).

Definition outcome : Type := result pyexn pyval.

Definition exn_cls (e : pyexn) : exn_class :=
  match e with MkExn c _ _ _ => c end.

Definition exn_attrs (e : pyexn) : list (string * pyval) :=
  match e with MkExn _ _ _ a => a end.

(** [isinstance(e, transport.TransportError)] *)
Definition is_transport_error (e : pyexn) : bool :=
  match exn_cls e with TransportError => true | _ => false end.

(** [isinstance(e, Exception)] *)
Definition is_Exception (e : pyexn) : bool :=
  match exn_cls e with BaseExceptionOnly _ => false | _ => true end.

(** [isinstance(e, StopIteration)] *)
Definition is_StopIteration (e : pyexn) : bool :=
  match exn_cls e with
  | OtherException name => String.eqb name "StopIteration"
  | _ => false
  end.

(** An exception on its way out of the frame of a generator or of a
    coroutine: a [StopIteration] does not leave it, the interpreter raises
    [RuntimeError("generator raised StopIteration")] in its place (PEP 479),
    with "coroutine" for "generator" in a coroutine; every other exception
    leaves the frame as it is.  The [__cause__] of the new exception, the
    original one, is not kept. *)
Definition leaves_frame (kind : string) (e : pyexn) : pyexn :=
  if is_StopIteration e
  then MkExn (OtherException "RuntimeError") 0
             [VStr (kind +:+ " raised StopIteration")] []
  else e.

(** Lookup in an insertion-ordered mapping (first binding wins). *)
Fixpoint assoc {A : Type} (k : string) (l : list (string * A)) : option A :=
  match l with
  | [] => None
  | (k', v) :: l' => if String.eqb k k' then Some v else assoc k l'
  end.

(** [type(v)], by name. *)
Definition type_of (v : pyval) : pyval :=
  VType match v with
        | VNone => "NoneType"
        | VBool _ => "bool"
        | VInt _ => "int"
        | VStr _ => "str"
        | VTuple _ => "tuple"
        | VNamedTuple _ => "namedtuple"
        | VDict _ => "dict"
        | VPath _ => "PosixPath"
        | VType _ => "type"
        | VObject c _ => c
        | VAwaitable _ => "coroutine"
        end.

(** Truth value of an object, as tested by [if v:] and [not v]. *)
Definition truthy (v : pyval) : bool :=
  match v with
  | VNone => false
  | VBool b => b
  | VInt n => negb (n =? 0)%Z
  | VStr s => negb (String.eqb s "")
  | VTuple l => negb (Nat.eqb (length l) 0)
  | VNamedTuple l => negb (Nat.eqb (length l) 0)
  | VDict l => negb (Nat.eqb (length l) 0)
  | _ => true
  end.

(** [isinstance(v, int)]; [bool] is a subclass of [int]. *)
Definition isinstance_int (v : pyval) : bool :=
  match v with VInt _ | VBool _ => true | _ => false end.

(** Numeric value of an [int] instance ([True] is 1, [False] is 0). *)
Definition int_value (v : pyval) : Z :=
  match v with
  | VInt n => n
  | VBool true => 1
  | _ => 0
  end.

(** [getattr(v, name)]; [None] is [AttributeError]. *)
Definition getattr (v : pyval) (name : string) : option pyval :=
  match v with
  | VNamedTuple fs => assoc name fs
  | VObject _ attrs => assoc name attrs
  | _ => None
  end.

(** [str(n)] for a non-negative integer. *)
Definition str_nat (n : nat) : string :=
  NilZero.string_of_uint (Nat.to_uint n).

End Py.
Import Py.

(** ** [CISourceFileInfoBase] *)

Module CIVisibility.

(** The frozen dataclass: three fields, holding whatever the caller passed. *)
Record CISourceFileInfoBase : Type := MkInfo {
  path : pyval;
  start_line : pyval;
  end_line : pyval
}.

(** [Path.is_absolute] *)
Definition is_absolute (p : Path) : bool := anchored p.

(** [Path.absolute]: the path joined onto the working directory, whose
    components are [cwd]. *)
Definition absolute (cwd : list string) (p : Path) : Path :=
  if anchored p then p else MkPath true (cwd ++ parts p).

Definition raise_ValueError {A : Type} (msg : string) (args : list pyval)
  : result pyexn A :=
  Raise (MkExn ValueError 0 (VStr msg :: args) []).

Definition _check_path (cwd : list string) (self : CISourceFileInfoBase)
  : result pyexn CISourceFileInfoBase :=
  match path self with
  | VPath p =>
      if negb (is_absolute p)
      then Return (MkInfo (VPath (absolute cwd p)) (start_line self) (end_line self))
      else Return self
  | other =>
      raise_ValueError "path must be a Path object, but is of type %s"
                       [type_of other]
  end.

Definition _check_line_number (line_number : pyval) (attr_name : string)
  : result pyexn unit :=
  match line_number with
  | VNone => Return tt
  | _ =>
      if negb (isinstance_int line_number)
      then raise_ValueError "%s must be an integer, but is of type %s"
                            [VStr attr_name; type_of line_number]
      else if (int_value line_number <? 1)%Z
      then raise_ValueError "%s must be a positive integer, but is %s"
                            [VStr attr_name; line_number]
      else Return tt
  end.

Definition is_None (v : pyval) : bool :=
  match v with VNone => true | _ => false end.

Definition _check_line_numbers (self : CISourceFileInfoBase)
  : result pyexn unit :=
  match _check_line_number (start_line self) "start_line" with
  | Raise e => Raise e
  | Return _ =>
  match _check_line_number (end_line self) "end_line" with
  | Raise e => Raise e
  | Return _ =>
      if negb (is_None (start_line self)) && negb (is_None (end_line self))
         && (int_value (end_line self) <? int_value (start_line self))%Z
      then raise_ValueError "start_line must be less than or equal to end_line" []
      else if is_None (start_line self) && negb (is_None (end_line self))
      then raise_ValueError "start_line must be set if end_line is set" []
      else Return tt
  end end.

(** Construction: the dataclass stores the fields, then [__post_init__]
    runs the two checks. *)
Definition __post_init__ (cwd : list string) (self : CISourceFileInfoBase)
  : result pyexn CISourceFileInfoBase :=
  match _check_path cwd self with
  | Raise e => Raise e
  | Return self1 =>
      match _check_line_numbers self1 with
      | Raise e => Raise e
      | Return _ => Return self1
      end
  end.

(** A line number that is [None], or an [int] that is at least 1. *)
Definition line_ok (v : pyval) : bool :=
  is_None v || (isinstance_int v && (1 <=? int_value v)%Z).




End CIVisibility.

(** ** Patch state tracker: [_patch] and [_unpatch] *)

Module Patch.

(** The two replacement implementations: [_get_perform_request(transport)]
    and [_get_perform_request_async(transport)]. *)
Inductive wrapper : Type :=
| SyncInterceptor
| AsyncInterceptor.

(** A transport class.  [perform_request] is the stack of wrappers currently
    installed around the original method, outermost first ([[]] is the
    original method itself); [pinned] tells whether a [Pin] was attached. *)
Record TransportClass : Type := MkClass {
  perform_request : list wrapper;
  pinned : bool
}.

(** A transport module: the [_datadog_patch] attribute (absent until it is
    first assigned) and the two classes a variant may or may not define. *)
Record TransportModule : Type := MkModule {
  _datadog_patch : option bool;
  Transport : option TransportClass;
  AsyncTransport : option TransportClass
}.

(** [getattr(transport, "_datadog_patch", False)] *)
Definition patch_flag (transport : TransportModule) : bool :=
  default false (_datadog_patch transport).

(** [getattr(transport, classname)]; [None] is [AttributeError]. *)
Definition get_class (transport : TransportModule) (classname : string)
  : option TransportClass :=
  if String.eqb classname "Transport" then Transport transport
  else if String.eqb classname "AsyncTransport" then AsyncTransport transport
  else None.

Definition set_class (transport : TransportModule) (classname : string)
  (cls : TransportClass) : TransportModule :=
  if String.eqb classname "Transport"
  then MkModule (_datadog_patch transport) (Some cls) (AsyncTransport transport)
  else if String.eqb classname "AsyncTransport"
  then MkModule (_datadog_patch transport) (Transport transport) (Some cls)
  else transport.

Definition set_flag (transport : TransportModule) (b : bool) : TransportModule :=
  MkModule (Some b) (Transport transport) (AsyncTransport transport).

(** Modelled from the spec: the wrap primitive [wrap_function_wrapper]
    (vendored [wrapt], not in the source tree) "installs a replacement
    implementation for a named method on a class": the wrapper goes on top
    of whatever the method currently is. *)
Definition _w (cls : TransportClass) (w : wrapper) : TransportClass :=
  MkClass (w :: perform_request cls) (pinned cls).

(** Modelled from the spec: the unwrap primitive
    ([ddtrace.internal.utils.wrappers.unwrap], not in the source tree)
    "later restores the original": it takes the outermost wrapper off, and
    has nothing to restore (an [AttributeError]) on a method that is not
    wrapped. *)
Definition _u (cls : TransportClass) : result pyexn TransportClass :=
  match perform_request cls with
  | [] => Raise (MkExn AttributeError 0 [VStr "__wrapped__"] [])
  | _ :: original => Return (MkClass original (pinned cls))
  end.

(** [Pin().onto(cls)] *)
Definition Pin_onto (cls : TransportClass) : TransportClass :=
  MkClass (perform_request cls) true.

Definition _patch (transport : TransportModule) : TransportModule :=
  if patch_flag transport then transport
  else
    let transport :=
      match get_class transport "Transport" with
      | Some cls =>
          set_class (set_flag transport true) "Transport"
                    (Pin_onto (_w cls SyncInterceptor))
      | None => transport
      end in
    let transport :=
      match get_class transport "AsyncTransport" with
      | Some cls =>
          set_class (set_flag transport true) "AsyncTransport"
                    (Pin_onto (_w cls AsyncInterceptor))
      | None => transport
      end in
    transport.

(** The [for classname in ("Transport", "AsyncTransport")] loop of
    [_unpatch]; the module is returned together with the outcome, since an
    exception leaves the assignments made so far in place. *)
Fixpoint _unpatch_loop (classnames : list string) (transport : TransportModule)
  : TransportModule * result pyexn unit :=
  match classnames with
  | [] => (transport, Return tt)
  | classname :: rest =>
      match get_class transport classname with
      | None => _unpatch_loop rest transport
      | Some cls =>
          let transport := set_flag transport false in
          match _u cls with
          | Raise e => (transport, Raise e)
          | Return cls' => _unpatch_loop rest (set_class transport classname cls')
          end
      end
  end.

Definition _unpatch (transport : TransportModule)
  : TransportModule * result pyexn unit :=
  if negb (patch_flag transport) then (transport, Return tt)
  else _unpatch_loop ["Transport"; "AsyncTransport"] transport.

(** A module as the library ships it: no flag, nothing wrapped. *)
Definition unwrapped (c : option TransportClass) : Prop :=
  forall cls, c = Some cls -> perform_request cls = [].

Definition pristine (transport : TransportModule) : Prop :=
  patch_flag transport = false
  /\ unwrapped (Transport transport)
  /\ unwrapped (AsyncTransport transport).

(** The operations of the tracker. *)
Inductive op : Type := Apply | Remove.

Definition run_op (o : op) (transport : TransportModule) : TransportModule :=
  match o with
  | Apply => _patch transport
  | Remove => fst (_unpatch transport)
  end.

(** Modules reached from a pristine one by any sequence of apply and remove. *)
Inductive reachable : TransportModule -> Prop :=
| reach_pristine t : pristine t -> reachable t
| reach_op o t : reachable t -> reachable (run_op o t).

(** Number of wrappers around the method of a class that may be absent. *)
Definition depth (c : option TransportClass) : nat :=
  match c with
  | Some cls => length (perform_request cls)
  | None => 0
  end.

(** What holds of every module the tracker can produce: each present method
    carries exactly one wrapper when the flag is set and none when it is not. *)
Definition wrapped_as (flag : bool) (c : option TransportClass) : Prop :=
  match c with
  | Some cls => length (perform_request cls) = if flag then 1 else 0
  | None => True
  end.

Definition settled (t : TransportModule) : Prop :=
  wrapped_as (patch_flag t) (Transport t)
  /\ wrapped_as (patch_flag t) (AsyncTransport t).

End Patch.

(** ** The interceptor: [_get_perform_request_coro] and its two adapters *)

Module Interceptor.

(** Tag and metric names.  Their string values are constants of modules
    outside the source tree ([ddtrace.constants], [ddtrace.ext]); they are
    kept symbolic. *)
Inductive tag_key : Type :=
| COMPONENT
| SPAN_KIND
| SPAN_MEASURED_KEY
| ANALYTICS_SAMPLE_RATE_KEY
| METHOD
| URL
| PARAMS
| BODY
| TOOK
| STATUS_CODE
| QUERY_STRING
| TARGET_HOST.

(** What the routine does to its collaborators, in program order. *)
Inductive event : Type :=
| EvTrace (name service span_type : string)
    (** [pin.tracer.trace(...)] entered: the span is created *)
| EvSetTags (tags : list (string * pyval))
| EvSetTagStr (key : tag_key) (value : pyval)
| EvSetTag (key : tag_key) (value : pyval)
| EvSetMetric (key : tag_key) (value : Z)
| EvSetError (value : Z)
    (** [span.error = value] *)
| EvQuantize
    (** [span = quantize(span)] *)
| EvCall (args : list pyval) (kwargs : gmap string pyval)
    (** [func( *args, **kwargs)] *)
| EvAwait (aw : pyval)
    (** [await aw] *)
| EvLogDebug (msg : string)
| EvSpanExit (exc : option pyexn).
    (** the [with] block is left: the span is closed, [exc] being the
        exception in flight, if any *)

(** The tracing handle of an instance.  [sampling_priority] is what
    [span.context.sampling_priority] reads on a span of its tracer. *)
Record Pin : Type := MkPin {
  enabled : bool;
  tags : list (string * pyval);
  sampling_priority : option Z
}.

(** The transport instance, as far as the routine reads it:
    [Pin.get_from(instance)], the [host] of each connection of
    [connection_pool.connections] (or of [node_pool.all()] where the former
    is absent), and [serializer.dumps] (or [serializers.dumps]). *)
Record Instance : Type := MkInstance {
  pin_of : option Pin;
  connection_hosts : list string;
  dumps : pyval -> result pyexn string
}.

(** Collaborators and constants defined outside the source tree. *)
Record Env : Type := MkEnv {
  MAX_SPAN_META_VALUE_LEN : nat;
  integration_name : string;
  SpanKind_CLIENT : string;
  SpanTypes_ELASTICSEARCH : string;
  trace_query_string : bool;
  get_analytics_sample_rate : pyval;
  ext_service : Pin -> string;
  (** [parse.urlparse(target)]: its [path] and [query] *)
  urlparse : pyval -> result pyexn (string * string);
  urlencode : pyval -> result pyexn string;
  (** first component of [extract_netloc_and_query_info_from_url(host)] *)
  netloc_of : string -> string;
  (** [int(s)] on a [str]; [None] is [ValueError] *)
  int_of_str : string -> option Z
}.

(** The wrapped function: what [func( *args, **kwargs)] evaluates to.  Under
    the asynchronous convention it returns a [VAwaitable]. *)
Definition callee : Type := list pyval -> gmap string pyval -> outcome.

(** *** Effects: an event log and exceptions *)

Definition M (A : Type) : Type := (list event * result pyexn A)%type.

Definition ret {A : Type} (a : A) : M A := ([], Return a).

Definition raise {A : Type} (e : pyexn) : M A := ([], Raise e).

Definition emit (ev : event) : M unit := ([ev], Return tt).

Definition lift {A : Type} (r : result pyexn A) : M A := ([], r).

Definition bind {A B : Type} (m : M A) (k : A -> M B) : M B :=
  match m with
  | (evs, Return a) => let '(evs', r) := k a in (evs ++ evs', r)
  | (evs, Raise e) => (evs, Raise e)
  end.

Notation "x <- m ;; k" := (bind m (fun x => k))
  (at level 20, m at level 99, k at level 200, only parsing).
Notation "' p <- m ;; k" := (bind m (fun x => let 'p := x in k))
  (at level 20, p pattern, m at level 99, k at level 200, only parsing).
Notation "m ;; k" := (bind m (fun _ => k))
  (at level 100, k at level 200, only parsing, right associativity).

(** [when c: m] *)
Definition when (c : bool) (m : M unit) : M unit := if c then m else ret tt.

(** [try: body  except C: handler], [C] given by the test [catches]. *)
Definition try_except {A : Type} (body : M A) (catches : pyexn -> bool)
  (handler : pyexn -> M A) : M A :=
  match body with
  | (evs, Raise e) =>
      if catches e then let '(evs', r) := handler e in (evs ++ evs', r)
      else (evs, Raise e)
  | done => done
  end.

(** *** Pieces of the routine *)

(** [kwargs.get(key)] *)
Definition kwargs_get (kwargs : gmap string pyval) (key : string) : pyval :=
  default VNone (kwargs !! key).

(** [a, b = seq] *)
Definition unpack2 (items : list pyval) : result pyexn (pyval * pyval) :=
  match items with
  | [a; b] => Return (a, b)
  | [] | [_] =>
      Raise (MkExn ValueError 0 [VStr "not enough values to unpack"] [])
  | _ => Raise (MkExn ValueError 0 [VStr "too many values to unpack"] [])
  end.

(** [v == s] for a string literal [s] *)
Definition eq_str (v : pyval) (s : string) : bool :=
  match v with VStr s' => String.eqb s' s | _ => false end.

(** [method in ["GET", "POST"]] *)
Definition in_GET_POST (method : pyval) : bool :=
  eq_str method "GET" || eq_str method "POST".

(** ["<body size %s exceeds limit of %s>" % (size, limit)] *)
Definition body_placeholder (size limit : nat) : string :=
  "<body size " +:+ str_nat size +:+ " exceeds limit of " +:+ str_nat limit +:+ ">".

(** The loop over the connections: tag the first host that has a name. *)
Fixpoint tag_target_host (E : Env) (hosts : list string) : M unit :=
  match hosts with
  | [] => ret tt
  | host :: rest =>
      let hostname := netloc_of E host in
      if negb (String.eqb hostname "")
      then emit (EvSetTagStr TARGET_HOST (VStr hostname))
      else tag_target_host E rest
  end.

(** Lines 156-159: the params of the call if there are any, else the query
    string of the target. *)
Definition encode_params (E : Env) (params : pyval) (query : string) : M string :=
  if truthy params then lift (urlencode E params) else ret query.

(** Lines 179-197: the body tag. *)
Definition body_tag (E : Env) (instance : Instance) (method body : pyval)
  : M unit :=
  when (in_GET_POST method)
       (ser_body <- lift (dumps instance body) ;;
        if (String.length ser_body <=? MAX_SPAN_META_VALUE_LEN E)%nat
        then emit (EvSetTagStr BODY (VStr ser_body))
        else emit (EvSetTagStr BODY
                     (VStr (body_placeholder (String.length ser_body)
                                             (MAX_SPAN_META_VALUE_LEN E))))).

(** Lines 149-203: from [method, target = args] to [span = quantize(span)]. *)
Definition request_tags (E : Env) (instance : Instance)
  (args : list pyval) (kwargs : gmap string pyval) : M unit :=
  '(method, target) <- lift (unpack2 args) ;;
  let params := kwargs_get kwargs "params" in
  let body := kwargs_get kwargs "body" in
  '(url, query) <- lift (urlparse E target) ;;
  encoded_params <- encode_params E params query ;;
  emit (EvSetTagStr METHOD method) ;;
  emit (EvSetTagStr URL (VStr url)) ;;
  emit (EvSetTagStr PARAMS (VStr encoded_params)) ;;
  tag_target_host E (connection_hosts instance) ;;
  when (trace_query_string E)
       (emit (EvSetTagStr QUERY_STRING (VStr encoded_params))) ;;
  body_tag E instance method body ;;
  emit (EvSetTag ANALYTICS_SAMPLE_RATE_KEY (get_analytics_sample_rate E)) ;;
  emit EvQuantize.

(** [isinstance(result, tuple)] *)
Definition isinstance_tuple (v : pyval) : bool :=
  match v with VTuple _ | VNamedTuple _ => true | _ => false end.

(** The items of a tuple, for unpacking. *)
Definition tuple_items (v : pyval) : list pyval :=
  match v with
  | VTuple l => l
  | VNamedTuple fs => map snd fs
  | _ => []
  end.

(** [int(v)] *)
Definition py_int (E : Env) (v : pyval) : result pyexn Z :=
  match v with
  | VInt n => Return n
  | VBool b => Return (if b then 1 else 0)%Z
  | VStr s =>
      match int_of_str E s with
      | Some n => Return n
      | None => Raise (MkExn ValueError 0 [VStr "invalid literal for int()"] [])
      end
  | _ => Raise (MkExn TypeError 0 [VStr "int() argument"] [])
  end.

(** [data.get("took")] *)
Definition data_get_took (data : pyval) : result pyexn pyval :=
  match data with
  | VDict items => Return (default VNone (assoc "took" items))
  | _ => Raise (MkExn AttributeError 0 [VStr "get"] [])
  end.

(** Lines 214-225: [status] as left by the [if isinstance(result, tuple)]
    statement ([None] where it assigns nothing), and [data] or the exception
    that escapes the statement. *)
Definition status_and_data (result : pyval) : pyval * outcome :=
  if isinstance_tuple result then
    match getattr result "meta", getattr result "body" with
    | Some meta, Some data =>
        match getattr meta "status" with
        | Some status => (status, Return data)
        | None =>
            match unpack2 (tuple_items result) with
            | Return (status, data) => (status, Return data)
            | Raise e => (VNone, Raise e)
            end
        end
    | _, _ =>
        match unpack2 (tuple_items result) with
        | Return (status, data) => (status, Return data)
        | Raise e => (VNone, Raise e)
        end
    end
  else (VNone, Return result).

(** Lines 212-234: the soft-failing extraction, then the status tag. *)
Definition response_tags (E : Env) (result : pyval) : M unit :=
  let '(status, data) := status_and_data result in
  try_except
    (data <- lift data ;;
     took <- lift (data_get_took data) ;;
     when (truthy took)
          (n <- lift (py_int E took) ;; emit (EvSetMetric TOOK n)))
    is_Exception
    (fun _ => emit (EvLogDebug "Unexpected exception")) ;;
  when (truthy status) (emit (EvSetTag STATUS_CODE status)).

(** [getattr(e, "status_code", 500)] *)
Definition status_code_of (e : pyexn) : pyval :=
  default (VInt 500) (assoc "status_code" (exn_attrs e)).

(** [func( *args, **kwargs)], recorded. *)
Definition call (func : callee) (args : list pyval) (kwargs : gmap string pyval)
  : M pyval :=
  (_ <- emit (EvCall args kwargs) ;; lift (func args kwargs)).

(** *** The generator *)

(** The three [yield] expressions of [_perform_request]: line 128 (no
    tracing), line 146 (trace already dropped), line 206 (fully traced). *)
Inductive yield_site : Type :=
| YieldDisabled
| YieldUnsampled
| YieldTraced.

(** What resuming the generator gives. *)
Inductive gen_step : Type :=
| Yielded (v : pyval) (site : yield_site)
| Finished
| Raised (e : pyexn).

(** [with pin.tracer.trace(...) as span:] around the part of the body that
    runs up to the [yield]: an exception leaves the block, closing the span. *)
Definition with_span_until_yield (opened : event) (site : yield_site)
  (body : M pyval) : list event * gen_step :=
  match body with
  | (evs, Return v) => (opened :: evs, Yielded v site)
  | (evs, Raise e) => (opened :: evs ++ [EvSpanExit (Some e)], Raised e)
  end.

(** The [span.context.sampling_priority is not None and ... <= 0] test. *)
Definition dropped (pin : Pin) : bool :=
  match sampling_priority pin with
  | Some p => (p <=? 0)%Z
  | None => false
  end.

(** Lines 134-142. *)
Definition span_setup (E : Env) (pin : Pin) : M unit :=
  when (negb (Nat.eqb (length (tags pin)) 0)) (emit (EvSetTags (tags pin))) ;;
  emit (EvSetTagStr COMPONENT (VStr (integration_name E))) ;;
  emit (EvSetTagStr SPAN_KIND (VStr (SpanKind_CLIENT E))) ;;
  emit (EvSetTag SPAN_MEASURED_KEY VNone).

(** Lines 205-210: the call under [try ... except transport.TransportError]. *)
Definition traced_call (func : callee) (args : list pyval)
  (kwargs : gmap string pyval) : M pyval :=
  try_except (call func args kwargs) is_transport_error
    (fun e =>
       emit (EvSetTag STATUS_CODE (status_code_of e)) ;;
       emit (EvSetError 1) ;;
       raise e).

(** The boundary of the generator's frame: what the body raises reaches the
    caller of [next] or [send] through [leaves_frame]. *)
Definition generator_frame (body : list event * gen_step)
  : list event * gen_step :=
  match body with
  | (evs, Raised e) => (evs, Raised (leaves_frame "generator" e))
  | _ => body
  end.

(** [next(coro)]: the generator runs from its start to its first [yield]. *)
Definition coro_next (E : Env) (func : callee) (instance : Instance)
  (args : list pyval) (kwargs : gmap string pyval) : list event * gen_step :=
  generator_frame
  match pin_of instance with
  | Some pin =>
      if negb (enabled pin) then
        match call func args kwargs with
        | (evs, Return v) => (evs, Yielded v YieldDisabled)
        | (evs, Raise e) => (evs, Raised e)
        end
      else
        let opened :=
          EvTrace "elasticsearch.query" (ext_service E pin)
                  (SpanTypes_ELASTICSEARCH E) in
        if dropped pin then
          with_span_until_yield opened YieldUnsampled
            (span_setup E pin ;; call func args kwargs)
        else
          with_span_until_yield opened YieldTraced
            (span_setup E pin ;;
             request_tags E instance args kwargs ;;
             traced_call func args kwargs)
  | None =>
      match call func args kwargs with
      | (evs, Return v) => (evs, Yielded v YieldDisabled)
      | (evs, Raise e) => (evs, Raised e)
      end
  end.

(** [coro.send(result)]: the generator runs from the [yield] it is suspended
    at to its end. *)
Definition coro_send (E : Env) (site : yield_site) (result : pyval)
  : list event * gen_step :=
  generator_frame
  match site with
  | YieldDisabled => ([], Finished)
  | YieldUnsampled => ([EvSpanExit None], Finished)
  | YieldTraced =>
      match response_tags E result with
      | (evs, Return _) => (evs ++ [EvSpanExit None], Finished)
      | (evs, Raise e) => (evs ++ [EvSpanExit (Some e)], Raised e)
      end
  end.

(** *** The adapters *)

Definition StopIteration : pyexn := MkExn (OtherException "StopIteration") 0 [] [].

(** [_get_perform_request(transport)]: the synchronous adapter. *)
Definition _perform_request (E : Env) (func : callee) (instance : Instance)
  (args : list pyval) (kwargs : gmap string pyval) : list event * outcome :=
  match coro_next E func instance args kwargs with
  | (evs, Raised e) => (evs, Raise e)
  | (evs, Finished) => (evs, Raise StopIteration)
  | (evs, Yielded result site) =>
      match coro_send E site result with
      | (evs', Raised e) => (evs ++ evs', Raise e)
      | (evs', _) => (evs ++ evs', Return result)
      end
  end.

(** [await v] *)
Definition await (v : pyval) : M pyval :=
  _ <- emit (EvAwait v) ;;
  match v with
  | VAwaitable o => lift o
  | _ => raise (MkExn TypeError 0 [VStr "object can't be used in 'await' expression"] [])
  end.

(** The boundary of the frame of a coroutine (the body of an [async def]). *)
Definition coroutine_frame (body : list event * outcome) : list event * outcome :=
  match body with
  | (evs, Raise e) => (evs, Raise (leaves_frame "coroutine" e))
  | _ => body
  end.

(** [_get_perform_request_async(transport)]: the asynchronous adapter.  When
    the awaited call raises, the exception leaves the adapter from the
    [await]: the generator is not resumed. *)
Definition _perform_request_async (E : Env) (func : callee) (instance : Instance)
  (args : list pyval) (kwargs : gmap string pyval) : list event * outcome :=
  coroutine_frame
  match coro_next E func instance args kwargs with
  | (evs, Raised e) => (evs, Raise e)
  | (evs, Finished) => (evs, Raise StopIteration)
  | (evs, Yielded aw site) =>
      match await aw with
      | (evs1, Raise e) => (evs ++ evs1, Raise e)
      | (evs1, Return result) =>
          match coro_send E site result with
          | (evs', Raised e) => (evs ++ evs1 ++ evs', Raise e)
          | (evs', _) => (evs ++ evs1 ++ evs', Return result)
          end
      end
  end.

(** The call as it runs without the patch, under each convention. *)
Definition unwrapped_call (func : callee) (args : list pyval)
  (kwargs : gmap string pyval) : outcome :=
  func args kwargs.

Definition unwrapped_call_async (func : callee) (args : list pyval)
  (kwargs : gmap string pyval) : outcome :=
  match func args kwargs with
  | Return aw => snd (await aw)
  | Raise e => Raise e
  end.

(** The two calling conventions, and the wrapped and the plain call under
    each. *)
Inductive convention : Type := Sync | Async.

Definition wrapped (c : convention) : Env -> callee -> Instance ->
  list pyval -> gmap string pyval -> list event * outcome :=
  match c with
  | Sync => _perform_request
  | Async => _perform_request_async
  end.

Definition plain (c : convention) : callee -> list pyval ->
  gmap string pyval -> outcome :=
  match c with
  | Sync => unwrapped_call
  | Async => unwrapped_call_async
  end.

(** The outcome of the call as the wrapped call hands it on.  The call is
    made in the frame of the generator, and under the asynchronous
    convention what it returns is awaited in the frame of the adapter's
    coroutine: a value, and any exception but [StopIteration], is that of
    the plain call. *)
Definition relayed (c : convention) (func : callee) (args : list pyval)
  (kwargs : gmap string pyval) : outcome :=
  match func args kwargs with
  | Raise e => Raise (leaves_frame "generator" e)
  | Return v =>
      match c with
      | Sync => Return v
      | Async =>
          match snd (await v) with
          | Raise e => Raise (leaves_frame "coroutine" e)
          | Return result => Return result
          end
      end
  end.

(** An outcome other than a raised [StopIteration]. *)
Definition no_StopIteration (o : outcome) : Prop :=
  forall e, o = Raise e -> is_StopIteration e = false.

(** The events of [coro.send(result)] at each [yield]. *)
Definition events_after_yield (E : Env) (site : yield_site) (result : pyval)
  : list event :=
  match site with
  | YieldDisabled => []
  | YieldUnsampled => [EvSpanExit None]
  | YieldTraced => fst (response_tags E result) ++ [EvSpanExit None]
  end.

(** The outcome of the call is produced where the routine can see it: under
    the synchronous convention always, under the asynchronous one unless it
    is the [await] that raises. *)
Definition outcome_seen_by_routine (c : convention) (func : callee)
  (args : list pyval) (kwargs : gmap string pyval) : Prop :=
  match c, func args kwargs with
  | Async, Return aw => exists result, snd (await aw) = Return result
  | _, _ => True
  end.

(** The events that follow the call on a trace known to be dropped. *)
Definition events_after_dropped_call (c : convention) (func : callee)
  (args : list pyval) (kwargs : gmap string pyval) : list event :=
  match func args kwargs with
  | Raise e => [EvSpanExit (Some e)]
  | Return v =>
      match c with
      | Sync => [EvSpanExit None]
      | Async =>
          EvAwait v
          :: match snd (await v) with
             | Return _ => [EvSpanExit None]
             | Raise _ => []
             end
      end
  end.

(** The events that follow the call in a fully traced call. *)
Definition events_after_traced_call (E : Env) (c : convention) (func : callee)
  (args : list pyval) (kwargs : gmap string pyval) : list event :=
  match func args kwargs with
  | Raise e =>
      (if is_transport_error e
       then [EvSetTag STATUS_CODE (status_code_of e); EvSetError 1]
       else [])
      ++ [EvSpanExit (Some e)]
  | Return v =>
      match c with
      | Sync => events_after_yield E YieldTraced v
      | Async =>
          EvAwait v
          :: match snd (await v) with
             | Return result => events_after_yield E YieldTraced result
             | Raise _ => []
             end
      end
  end.

(** *** Observations on an event log *)

Definition is_call (ev : event) : bool :=
  match ev with EvCall _ _ => true | _ => false end.

Definition is_trace (ev : event) : bool :=
  match ev with EvTrace _ _ _ => true | _ => false end.

Definition is_span_exit (ev : event) : bool :=
  match ev with EvSpanExit _ => true | _ => false end.

Definition is_quantize (ev : event) : bool :=
  match ev with EvQuantize => true | _ => false end.

Definition is_set_error (ev : event) : bool :=
  match ev with EvSetError _ => true | _ => false end.

Definition tag_key_eqb (a b : tag_key) : bool :=
  match a, b with
  | COMPONENT, COMPONENT | SPAN_KIND, SPAN_KIND
  | SPAN_MEASURED_KEY, SPAN_MEASURED_KEY
  | ANALYTICS_SAMPLE_RATE_KEY, ANALYTICS_SAMPLE_RATE_KEY
  | METHOD, METHOD | URL, URL | PARAMS, PARAMS | BODY, BODY | TOOK, TOOK
  | STATUS_CODE, STATUS_CODE | QUERY_STRING, QUERY_STRING
  | TARGET_HOST, TARGET_HOST => true
  | _, _ => false
  end.

(** The values given to [key] by [set_tag_str], in order. *)
Fixpoint tag_str_values (key : tag_key) (evs : list event) : list pyval :=
  match evs with
  | [] => []
  | EvSetTagStr k v :: rest =>
      if tag_key_eqb k key then v :: tag_str_values key rest
      else tag_str_values key rest
  | _ :: rest => tag_str_values key rest
  end.

(** The values given to [key] by [set_tag], in order. *)
Fixpoint tag_values (key : tag_key) (evs : list event) : list pyval :=
  match evs with
  | [] => []
  | EvSetTag k v :: rest =>
      if tag_key_eqb k key then v :: tag_values key rest
      else tag_values key rest
  | _ :: rest => tag_values key rest
  end.

(** The argument lists the wrapped function was invoked with, in order. *)
Fixpoint calls (evs : list event) : list (list pyval * gmap string pyval) :=
  match evs with
  | [] => []
  | EvCall a k :: rest => (a, k) :: calls rest
  | _ :: rest => calls rest
  end.

Definition count (p : event -> bool) (evs : list event) : nat :=
  length (filter (fun ev => p ev = true) evs).

(** Events that record something derived from the outcome of the call. *)
Definition is_outcome_tag (ev : event) : bool :=
  match ev with
  | EvSetTag STATUS_CODE _ | EvSetMetric TOOK _ | EvSetError _ => true
  | _ => false
  end.

(** Events of request- or response-tag derivation. *)
Definition is_derivation (ev : event) : bool :=
  match ev with
  | EvSetTagStr (METHOD | URL | PARAMS | BODY | QUERY_STRING | TARGET_HOST) _
  | EvSetTag (ANALYTICS_SAMPLE_RATE_KEY | STATUS_CODE) _
  | EvSetMetric _ _ | EvQuantize | EvLogDebug _ => true
  | _ => false
  end.

(** [sub] occurs in [s]. *)
Definition contains (s sub : string) : Prop :=
  exists pre post, s = pre +:+ sub +:+ post.

(** [ev] is [set_tag_str(key, ...)] *)
Definition sets_tag_str (key : tag_key) (ev : event) : bool :=
  match ev with EvSetTagStr k _ => tag_key_eqb k key | _ => false end.

(** [ev] tags the target host. *)
Definition host_tag (ev : event) : Prop :=
  exists hostname, ev = EvSetTagStr TARGET_HOST (VStr hostname).

(** [ev] is one of the operations of response-tag derivation. *)
Definition response_event (ev : event) : Prop :=
  (exists n, ev = EvSetMetric TOOK n)
  \/ (exists msg, ev = EvLogDebug msg)
  \/ (exists status, ev = EvSetTag STATUS_CODE status).

(** The value the body tag is given for a serialized body. *)
Definition body_tag_value (E : Env) (ser_body : string) : pyval :=
  VStr (if (String.length ser_body <=? MAX_SPAN_META_VALUE_LEN E)%nat
        then ser_body
        else body_placeholder (String.length ser_body) (MAX_SPAN_META_VALUE_LEN E)).

(** *** Conditions on a call *)

(** Tracing is on for the instance and the trace is not known to be dropped:
    the routine goes on to request-tag derivation. *)
Definition fully_traced (instance : Instance) : Prop :=
  exists pin,
    pin_of instance = Some pin /\ enabled pin = true /\ dropped pin = false.

(** Request-tag derivation raises nothing: the positional arguments are
    exactly [(method, target)], and parsing the target, encoding the params
    and serializing the body, where they are run, return. *)
Definition derivable (E : Env) (instance : Instance)
  (args : list pyval) (kwargs : gmap string pyval) : Prop :=
  exists method target url query,
    args = [method; target]
    /\ urlparse E target = Return (url, query)
    /\ (truthy (kwargs_get kwargs "params") = true ->
        exists enc, urlencode E (kwargs_get kwargs "params") = Return enc)
    /\ (in_GET_POST method = true ->
        exists ser_body, dumps instance (kwargs_get kwargs "body") = Return ser_body).

(** The events of the routine from the creation of the span to the last
    tag of a request-tag derivation that completes: [enc] the encoded params
    and [body_events] the events of the body tag. *)
Definition events_before_quantize (E : Env) (pin : Pin) (instance : Instance)
  (method : pyval) (url enc : string) (body_events : list event) : list event :=
  EvTrace "elasticsearch.query" (ext_service E pin) (SpanTypes_ELASTICSEARCH E)
  :: fst (span_setup E pin)
  ++ EvSetTagStr METHOD method
  :: EvSetTagStr URL (VStr url)
  :: EvSetTagStr PARAMS (VStr enc)
  :: fst (tag_target_host E (connection_hosts instance))
  ++ (if trace_query_string E then [EvSetTagStr QUERY_STRING (VStr enc)] else [])
  ++ body_events
  ++ [EvSetTag ANALYTICS_SAMPLE_RATE_KEY (get_analytics_sample_rate E)].

(** The same, up to [span = quantize(span)]. *)
Definition events_before_call (E : Env) (pin : Pin) (instance : Instance)
  (method : pyval) (url enc : string) (body_events : list event) : list event :=
  events_before_quantize E pin instance method url enc body_events
  ++ [EvQuantize].

(** [ev] sets the body tag. *)
Definition body_event (ev : event) : Prop :=
  exists v, ev = EvSetTagStr BODY v.

(** Events of the inside of the [with] block: neither the creation nor the
    closing of the span. *)
Definition is_inner_event (ev : event) : bool :=
  negb (is_trace ev) && negb (is_span_exit ev).

(** Events that can precede the quantizer: the creation of the span and the
    tags set from the pin, the configuration and the request. *)
Definition is_request_event (ev : event) : bool :=
  match ev with
  | EvTrace _ _ _ | EvSetTags _ | EvSetTagStr _ _
  | EvSetTag (SPAN_MEASURED_KEY | ANALYTICS_SAMPLE_RATE_KEY) _ => true
  | _ => false
  end.

(** Events that can follow the call: what is recorded from its outcome, the
    [await] and the closing of the span. *)
Definition is_after_call_event (ev : event) : bool :=
  match ev with
  | EvSetMetric TOOK _ | EvLogDebug _ | EvSetTag STATUS_CODE _
  | EvSetError _ | EvAwait _ | EvSpanExit _ => true
  | _ => false
  end.

(** The events of the call under [try ... except transport.TransportError]
    and, where it raises, of leaving the [with] block. *)
Definition events_of_call (func : callee) (args : list pyval)
  (kwargs : gmap string pyval) : list event :=
  EvCall args kwargs
  :: match func args kwargs with
     | Return _ => []
     | Raise e =>
         if is_transport_error e
         then [EvSetTag STATUS_CODE (status_code_of e); EvSetError 1;
               EvSpanExit (Some e)]
         else [EvSpanExit (Some e)]
     end.

(** The wrapped call gives what the call gives without the patch, and the
    wrapped function is invoked once, with the arguments of the call. *)
Definition transparent (run : list event * outcome) (plain : outcome)
  (args : list pyval) (kwargs : gmap string pyval) : Prop :=
  snd run = plain /\ calls (fst run) = [(args, kwargs)].

(** Request- and response-tag derivation was skipped: the routine went on
    to the call, and derived nothing before or after it. *)
Definition derivation_skipped (evs : list event) : Prop :=
  count is_call evs = 1 /\ count is_derivation evs = 0.

(** A sampling priority has been assigned and it is zero or negative. *)
Definition explicitly_non_positive (pin : Pin) : Prop :=
  exists p, sampling_priority pin = Some p /\ (p <= 0)%Z.

(** A negative sampling priority has been assigned. *)
Definition explicitly_negative (pin : Pin) : Prop :=
  exists p, sampling_priority pin = Some p /\ (p < 0)%Z.

(** The quantizer runs last before the span closes, the call having been
    made before it. *)
Definition quantize_is_post_process (evs : list event) : Prop :=
  exists pre exc,
    evs = pre ++ [EvQuantize; EvSpanExit exc] /\ count is_call pre = 1.

End Interceptor.

(** ** A concrete environment, for running the model *)

Module Scenario.
Import Interceptor.

(** The part of a target before the first [?], and the part after it. *)
Fixpoint split_query (s : string) : string * string :=
  match s with
  | EmptyString => ("", "")
  | String c rest =>
      if Ascii.eqb c "?"%char then ("", rest)
      else let '(p, q) := split_query rest in (String c p, q)
  end.

Definition simple_urlparse (target : pyval) : result pyexn (string * string) :=
  match target with
  | VStr s => Return (split_query s)
  | _ => Raise (MkExn AttributeError 0 [VStr "decode"] [])
  end.

(** [k1=v1&k2=v2] for a mapping with string values that need no quoting. *)
Fixpoint join_params (items : list (string * pyval)) : string :=
  match items with
  | [] => ""
  | [(k, VStr v)] => k +:+ "=" +:+ v
  | (k, VStr v) :: rest => k +:+ "=" +:+ v +:+ "&" +:+ join_params rest
  | _ :: rest => join_params rest
  end.

Definition simple_urlencode (params : pyval) : result pyexn string :=
  match params with
  | VDict items => Return (join_params items)
  | _ => Raise (MkExn TypeError 0 [VStr "not a valid non-string sequence or mapping object"] [])
  end.

Definition env (limit : nat) : Env := {|
  MAX_SPAN_META_VALUE_LEN := limit;
  integration_name := "elasticsearch";
  SpanKind_CLIENT := "client";
  SpanTypes_ELASTICSEARCH := "elasticsearch";
  trace_query_string := false;
  get_analytics_sample_rate := VNone;
  ext_service := fun _ => "elasticsearch";
  urlparse := simple_urlparse;
  urlencode := simple_urlencode;
  netloc_of := fun host => host;
  int_of_str := fun _ => None
|}.

(** A stand-in serializer: a string body is sent as it is. *)
Definition simple_dumps (body : pyval) : result pyexn string :=
  match body with
  | VStr s => Return s
  | VNone => Return "null"
  | _ => Return "{}"
  end.

Definition traced_pin (priority : option Z) : Pin :=
  MkPin true [] priority.

Definition instance (pin : option Pin) : Instance :=
  MkInstance pin ["127.0.0.1"] simple_dumps.

Definition search_args : list pyval := [VStr "GET"; VStr "/my-index/_search"].

Definition search_kwargs : gmap string pyval :=
  {[ "params" := VDict [("q", VStr "foo")] ]}.

Definition not_found : pyexn :=
  MkExn TransportError 7 [VInt 404; VStr "index_not_found_exception"]
        [("status_code", VInt 404)].

Definition search_hits : pyval := VDict [("took", VInt 3); ("hits", VDict [])].

(** A write with a body of 20 characters, and a call with a third
    positional argument. *)
Definition index_args : list pyval := [VStr "POST"; VStr "/my-index/_doc?refresh=true"].

Definition index_kwargs : gmap string pyval :=
  {[ "body" := VStr "{name: elasticsearch}" ]}.

Definition positional_headers_args : list pyval :=
  [VStr "GET"; VStr "/my-index/_search"; VNone].

(** A synchronous transport method, and an asynchronous one. *)
Definition returning (v : pyval) : callee := fun _ _ => Return v.
Definition raising (e : pyexn) : callee := fun _ _ => Raise e.
Definition async_returning (v : pyval) : callee :=
  fun _ _ => Return (VAwaitable (Return v)).
Definition async_raising (e : pyexn) : callee :=
  fun _ _ => Return (VAwaitable (Raise e)).

End Scenario.

(** ** Variant discovery: [_es_modules] and the recorded versions *)

Module Resolver.

(** A variant module, as far as discovery reads it: its [__versionstr__]
    and [__version__] attributes, absent on some variants. *)
Record ESModule : Type := MkESModule {
  __versionstr__ : option pyval;
  __version__ : option pyval
}.

(** What importing each name gives: a module, or the exception the import
    raises; a name that is not there is not installed. *)
Definition imports : Type := gmap string (result pyexn ESModule).

Definition ModuleNotFoundError (name : string) : pyexn :=
  MkExn (OtherException "ModuleNotFoundError") 0 [VStr name] [].

(** [isinstance(e, ImportError)] *)
Definition is_ImportError (e : pyexn) : bool :=
  match exn_cls e with
  | OtherException name =>
      String.eqb name "ImportError" || String.eqb name "ModuleNotFoundError"
  | _ => false
  end.

(** [import_module(module_name)] *)
Definition import_module (env : imports) (module_name : string)
  : result pyexn ESModule :=
  default (Raise (ModuleNotFoundError module_name)) (env !! module_name).

Definition module_names : list string :=
  ["elasticsearch"; "elasticsearch1"; "elasticsearch2"; "elasticsearch5";
   "elasticsearch6"; "elasticsearch7"; "elastic_transport"; "opensearchpy"].

(** [getattr(module, "__versionstr__", "")] *)
Definition versionstr_of (module : ESModule) : pyval :=
  default (VStr "") (__versionstr__ module).

(** [get_version_tuple(elasticsearch)] *)
Definition get_version_tuple (elasticsearch : ESModule) : pyval :=
  default (VStr "") (__version__ elasticsearch).

(** [get_version()] *)
Definition get_version : pyval := VStr "".

(** The generator [_es_modules], run to exhaustion over the names that are
    left, as the [for] loops of [patch] and [unpatch] run it: the modules it
    yields, the global [versions] as it leaves it, and the exception that
    ends it early, if any: an import failure other than [ImportError], as
    it leaves the frame of the generator. *)
Fixpoint es_modules_from (env : imports) (names : list string)
  (versions : gmap string pyval)
  : list ESModule * gmap string pyval * result pyexn unit :=
  match names with
  | [] => ([], versions, Return tt)
  | module_name :: rest =>
      match import_module env module_name with
      | Return module =>
          let versions := <[module_name := versionstr_of module]> versions in
          let '(yielded, versions', r) := es_modules_from env rest versions in
          (module :: yielded, versions', r)
      | Raise e =>
          if is_ImportError e then es_modules_from env rest versions
          else ([], versions, Raise (leaves_frame "generator" e))
      end
  end.

Definition _es_modules (env : imports) (versions : gmap string pyval)
  : list ESModule * gmap string pyval * result pyexn unit :=
  es_modules_from env module_names versions.

(** [get_versions()] after the variants have been enumerated, as [patch()]
    does, starting from [versions]. *)
Definition get_versions_after (env : imports) (versions : gmap string pyval)
  : gmap string pyval :=
  snd (fst (_es_modules env versions)).

(** Every import either succeeds or fails with an [ImportError]. *)
Definition imports_cleanly (env : imports) : Prop :=
  forall name e, env !! name = Some (Raise e) -> is_ImportError e = true.

End Resolver.

(** ** CI visibility item identifiers *)

Module CIItems.

(** [_CIVisibilityRootItemIdBase] and [_CIVisibilityChildItemIdBase]: a root
    item, or a child of a root or of another child. *)
Inductive item_id : Type :=
| RootItemId (name : string)
| ChildItemId (parent_id : item_id) (name : string).

Definition get_parent_id (self : item_id) : item_id :=
  match self with
  | RootItemId _ => self
  | ChildItemId parent_id _ => parent_id
  end.

(** Number of children on the way up to the root. *)
Fixpoint depth (self : item_id) : nat :=
  match self with
  | RootItemId _ => 0
  | ChildItemId parent_id _ => S (depth parent_id)
  end.

Definition is_root (self : item_id) : bool :=
  match self with RootItemId _ => true | ChildItemId _ _ => false end.

End CIItems.

(** ** Further readings of an event log *)

Module Readings.
Import Interceptor.

(** The asynchronous counterpart of a transport method: calling it returns
    an awaitable that, awaited, gives what the method gives. *)
Definition asyncify (func : callee) : callee :=
  fun args kwargs => Return (VAwaitable (func args kwargs)).

(** The metrics set, in order. *)
Fixpoint metrics (evs : list event) : list (tag_key * Z) :=
  match evs with
  | [] => []
  | EvSetMetric k n :: rest => (k, n) :: metrics rest
  | _ :: rest => metrics rest
  end.

Definition is_log (ev : event) : bool :=
  match ev with EvLogDebug _ => true | _ => false end.

Definition is_await (ev : event) : bool :=
  match ev with EvAwait _ => true | _ => false end.

(** The exceptions the span was closed with, in order ([None]: none in
    flight). *)
Fixpoint span_exits (evs : list event) : list (option pyexn) :=
  match evs with
  | [] => []
  | EvSpanExit exc :: rest => exc :: span_exits rest
  | _ :: rest => span_exits rest
  end.

(** The name of the first connection host that has one. *)
Definition first_hostname (E : Env) (hosts : list string) : option string :=
  head (filter (fun hostname => hostname <> "") (netloc_of E <$> hosts)).

Definition is_metric (ev : event) : bool :=
  match ev with EvSetMetric _ _ => true | _ => false end.

(** The operations of request-tag derivation: tags and the quantizer. *)
Definition is_tagging_event (ev : event) : bool :=
  match ev with
  | EvSetTagStr _ _ | EvSetTag _ _ | EvQuantize => true
  | _ => false
  end.

(** What the soft-failing extraction records for the [data] it was left
    with: the took metric, a debug log where something in it raised, or
    nothing. *)
Definition took_events (E : Env) (data : outcome) : list event :=
  match data with
  | Raise _ => [EvLogDebug "Unexpected exception"]
  | Return data =>
      match data_get_took data with
      | Raise _ => [EvLogDebug "Unexpected exception"]
      | Return took =>
          if truthy took then
            match py_int E took with
            | Return n => [EvSetMetric TOOK n]
            | Raise _ => [EvLogDebug "Unexpected exception"]
            end
          else []
      end
  end.

(** The status tag, set when the status is truthy. *)
Definition status_events (status : pyval) : list event :=
  if truthy status then [EvSetTag STATUS_CODE status] else [].

(** Request-tag derivation raises [e]. *)
Definition derivation_raises (E : Env) (instance : Instance)
  (args : list pyval) (kwargs : gmap string pyval) (e : pyexn) : Prop :=
  snd (request_tags E instance args kwargs) = Raise e.

End Readings.

(** * Properties *)

(** ** Exceptions leaving a frame *)

Lemma leaves_frame_other (kind : string) (e : pyexn) :
  is_StopIteration e = false -> leaves_frame kind e = e.
Proof. unfold leaves_frame. intros ->. reflexivity. Qed.

Lemma leaves_frame_not_StopIteration (kind : string) (e : pyexn) :
  is_StopIteration (leaves_frame kind e) = false.
Proof.
  unfold leaves_frame. destruct (is_StopIteration e) eqn:H; [reflexivity | exact H].
Qed.

Lemma leaves_frame_twice (kind kind' : string) (e : pyexn) :
  leaves_frame kind (leaves_frame kind' e) = leaves_frame kind' e.
Proof. apply leaves_frame_other, leaves_frame_not_StopIteration. Qed.

Lemma leaves_frame_StopIteration (kind : string) (e : pyexn) :
  is_StopIteration e = true ->
  leaves_frame kind e
  = MkExn (OtherException "RuntimeError") 0
          [VStr (kind +:+ " raised StopIteration")] [].
Proof. unfold leaves_frame. intros ->. reflexivity. Qed.

(** ** Source-file metadata *)

Section SourceFileInfo.
Import CIVisibility.

Variable cwd : list string.

Lemma absolute_is_absolute (p : Path) : is_absolute (absolute cwd p) = true.
Proof.
  unfold absolute, is_absolute. destruct (anchored p) eqn:Hp; [exact Hp | reflexivity].
Qed.


Lemma line_ok_not_None_int (v : pyval) :
  line_ok v = true -> is_None v = false -> isinstance_int v = true.
Proof.
  unfold line_ok. intros H Hn. rewrite Hn in H. cbn in H.
  apply andb_true_iff in H. tauto.
Qed.



End SourceFileInfo.


(** ** Patch state tracker *)

Section PatchTracker.
Import Patch.

Local Ltac open_module t :=
  destruct t as [[[|]|] [[lT pT]|] [[lA pA]|]];
  unfold settled, pristine, unwrapped, wrapped_as, _patch, _unpatch, patch_flag;
  cbn.

Local Ltac empty_lists :=
  repeat match goal with
         | H : length ?l = 0 |- _ => destruct l; [clear H | discriminate H]
         | H : length ?l = 1 |- _ =>
             destruct l as [|? [|? ?]]; try discriminate H; clear H
         end.

Lemma pristine_settled (t : TransportModule) : pristine t -> settled t.
Proof.
  open_module t; intros (Hf & HT & HA); try discriminate Hf;
    try (specialize (HT _ eq_refl); cbn in HT; subst);
    try (specialize (HA _ eq_refl); cbn in HA; subst); cbn; auto.
Qed.

Lemma patch_settled (t : TransportModule) : settled t -> settled (_patch t).
Proof.
  open_module t; intros [HT HA]; empty_lists; cbn; auto.
Qed.

Lemma unpatch_settled (t : TransportModule) :
  settled t -> settled (fst (_unpatch t)) /\ snd (_unpatch t) = Return tt.
Proof.
  open_module t; intros [HT HA]; empty_lists; cbn; auto.
Qed.

Lemma reachable_settled (t : TransportModule) : reachable t -> settled t.
Proof.
  induction 1 as [t Hp | o t Hr IH].
  - apply pristine_settled, Hp.
  - destruct o; cbn.
    + apply patch_settled, IH.
    + apply unpatch_settled, IH.
Qed.

Lemma patch_twice (t : TransportModule) : _patch (_patch t) = _patch t.
Proof.
  destruct t as [[[|]|] [[lT pT]|] [[lA pA]|]]; reflexivity.
Qed.

(** C6.  Applying the patch twice in a row is the same as applying it once;
    on a module as shipped it leaves exactly one wrapper, the interceptor of
    the matching convention, on each method that is present, and after any
    sequence of applies and removes no present method carries more than one;
    removing when the flag is unset changes nothing; and neither operation
    raises on a module where [Transport], [AsyncTransport] or both are
    absent ([_patch] has no raising path, [_unpatch] returns normally on
    every module the tracker can have produced). *)
Theorem patch_idempotence (t : TransportModule) :
  _patch (_patch t) = _patch t
  /\ (pristine t ->
      Transport (_patch (_patch t))
        = (fun cls => MkClass [SyncInterceptor] true) <$> Transport t
      /\ AsyncTransport (_patch (_patch t))
        = (fun cls => MkClass [AsyncInterceptor] true) <$> AsyncTransport t)
  /\ (forall ops, pristine t ->
      depth (Transport (foldr run_op t ops)) <= 1
      /\ depth (AsyncTransport (foldr run_op t ops)) <= 1)
  /\ (patch_flag t = false -> _unpatch t = (t, Return tt))
  /\ (forall ops, pristine t ->
      snd (_unpatch (foldr run_op t ops)) = Return tt).
Proof.
  split; [apply patch_twice | ].
  assert (Hreach : forall ops, pristine t -> reachable (foldr run_op t ops)).
  { intros ops Hp. induction ops as [|o ops IH]; cbn.
    - apply reach_pristine, Hp.
    - apply reach_op, IH. }
  split; [ | split; [ | split]].
  - rewrite patch_twice.
    open_module t; intros (Hf & HT & HA); try discriminate Hf;
      try (specialize (HT _ eq_refl); cbn in HT; subst);
    try (specialize (HA _ eq_refl); cbn in HA; subst); cbn; auto.
  - intros ops Hp. specialize (Hreach ops Hp).
    apply reachable_settled in Hreach. destruct Hreach as [HT HA].
    unfold wrapped_as, depth in *.
    destruct (patch_flag (foldr run_op t ops)),
             (Transport (foldr run_op t ops)),
             (AsyncTransport (foldr run_op t ops)); lia.
  - unfold _unpatch. intros ->. reflexivity.
  - intros ops Hp. apply unpatch_settled, reachable_settled, Hreach, Hp.
Qed.

End PatchTracker.

Lemma patch_idempotence_witness :
  let t := Patch.MkModule None None (Some (Patch.MkClass [] false)) in
  Patch.AsyncTransport (Patch._patch (Patch._patch t))
    = Some (Patch.MkClass [Patch.AsyncInterceptor] true)
  /\ Patch.depth (Patch.AsyncTransport
        (foldr Patch.run_op t [Patch.Apply; Patch.Remove; Patch.Apply; Patch.Apply])) <= 1
  /\ Patch._unpatch t = (t, Return tt)
  /\ snd (Patch._unpatch (foldr Patch.run_op t [Patch.Remove; Patch.Apply]))
     = Return tt.
Proof.
  intros t.
  assert (Hp : Patch.pristine t).
  { unfold Patch.pristine, Patch.unwrapped. cbn.
    split; [reflexivity | split]; intros cls H; [discriminate H | ].
    injection H as <-. reflexivity. }
  destruct (patch_idempotence t) as (_ & H1 & H2 & H3 & H4).
  split; [exact (proj2 (H1 Hp)) | split; [ | split]].
  - exact (proj2 (H2 [Patch.Apply; Patch.Remove; Patch.Apply; Patch.Apply] Hp)).
  - apply H3. reflexivity.
  - exact (H4 [Patch.Remove; Patch.Apply] Hp).
Defined.

(** ** The interceptor *)

Section InterceptorFacts.
Import Interceptor.

Variable E : Env.

(** *** The effect monad *)

Lemma bind_Return {A B : Type} (evs : list event) (a : A) (k : A -> M B) :
  bind (evs, Return a) k = (evs ++ fst (k a), snd (k a)).
Proof. cbn. destruct (k a). reflexivity. Qed.

Lemma bind_Raise {A B : Type} (evs : list event) (e : pyexn) (k : A -> M B) :
  bind (evs, Raise e) k = (evs, Raise e).
Proof. reflexivity. Qed.

Lemma bind_returns {A B : Type} (m : M A) (a : A) (k : A -> M B) :
  snd m = Return a -> bind m k = (fst m ++ fst (k a), snd (k a)).
Proof. destruct m as [evs r]. cbn. intros ->. destruct (k a). reflexivity. Qed.

(** *** Observations distribute over concatenation *)

Lemma count_app (p : event -> bool) (l1 l2 : list event) :
  count p (l1 ++ l2) = count p l1 + count p l2.
Proof. unfold count. rewrite filter_app, length_app. reflexivity. Qed.

Lemma count_cons (p : event -> bool) (ev : event) (l : list event) :
  count p (ev :: l) = (if p ev then 1 else 0) + count p l.
Proof.
  unfold count. rewrite filter_cons. destruct (p ev); case_decide; try done.
Qed.

Lemma count_nil (p : event -> bool) : count p [] = 0.
Proof. reflexivity. Qed.

Lemma calls_app (l1 l2 : list event) : calls (l1 ++ l2) = calls l1 ++ calls l2.
Proof.
  induction l1 as [|ev l1 IH]; [reflexivity | ].
  destruct ev; cbn; rewrite IH; reflexivity.
Qed.

Lemma tag_str_values_app (key : tag_key) (l1 l2 : list event) :
  tag_str_values key (l1 ++ l2) = tag_str_values key l1 ++ tag_str_values key l2.
Proof.
  induction l1 as [|ev l1 IH]; [reflexivity | ].
  destruct ev; cbn; rewrite ?IH; try reflexivity.
  destruct (tag_key_eqb key0 key); cbn; rewrite ?IH; reflexivity.
Qed.

Lemma tag_values_app (key : tag_key) (l1 l2 : list event) :
  tag_values key (l1 ++ l2) = tag_values key l1 ++ tag_values key l2.
Proof.
  induction l1 as [|ev l1 IH]; [reflexivity | ].
  destruct ev; cbn; rewrite ?IH; try reflexivity.
  destruct (tag_key_eqb key0 key); cbn; rewrite ?IH; reflexivity.
Qed.

(** *** Events of one kind are invisible to the other observations *)

Lemma count_none (p : event -> bool) (l : list event) :
  Forall (fun ev => p ev = false) l -> count p l = 0.
Proof.
  induction 1 as [|ev l Hev _ IH]; [reflexivity | ].
  rewrite count_cons, Hev, IH. reflexivity.
Qed.

Lemma calls_none (l : list event) :
  Forall (fun ev => is_call ev = false) l -> calls l = [].
Proof.
  induction 1 as [|ev l Hev _ IH]; [reflexivity | ].
  destruct ev; try discriminate Hev; exact IH.
Qed.

Lemma tag_str_values_none (key : tag_key) (l : list event) :
  Forall (fun ev => sets_tag_str key ev = false) l -> tag_str_values key l = [].
Proof.
  induction 1 as [|ev l Hev _ IH]; [reflexivity | ].
  destruct ev; cbn in *; try exact IH. rewrite Hev. exact IH.
Qed.

(** *** The pieces of the routine *)

Lemma tag_target_host_spec (hosts : list string) :
  snd (tag_target_host E hosts) = Return tt
  /\ Forall host_tag (fst (tag_target_host E hosts)).
Proof.
  induction hosts as [|host rest IH].
  - split; [reflexivity | apply Forall_nil_2].
  - cbn [tag_target_host].
    destruct (negb (String.eqb (netloc_of E host) "")); [ | exact IH].
    split; [reflexivity | ]. apply Forall_cons_2; [ | apply Forall_nil_2].
    eexists. reflexivity.
Qed.

Lemma span_setup_spec (pin : Pin) :
  span_setup E pin
  = ((if negb (Nat.eqb (length (tags pin)) 0) then [EvSetTags (tags pin)] else [])
     ++ [EvSetTagStr COMPONENT (VStr (integration_name E));
         EvSetTagStr SPAN_KIND (VStr (SpanKind_CLIENT E));
         EvSetTag SPAN_MEASURED_KEY VNone],
     Return tt).
Proof.
  unfold span_setup, when. destruct (negb (Nat.eqb (length (tags pin)) 0)); reflexivity.
Qed.

Lemma encode_params_spec (params : pyval) (query : string) :
  encode_params E params query
  = ([], if truthy params then urlencode E params else Return query).
Proof. unfold encode_params. destruct (truthy params); reflexivity. Qed.

Lemma body_tag_spec (instance : Instance) (method body : pyval) :
  body_tag E instance method body
  = if in_GET_POST method then
      match dumps instance body with
      | Return ser_body => ([EvSetTagStr BODY (body_tag_value E ser_body)], Return tt)
      | Raise e => ([], Raise e)
      end
    else ([], Return tt).
Proof.
  unfold body_tag, when, body_tag_value. destruct (in_GET_POST method); [ | reflexivity].
  destruct (dumps instance body) as [ser_body | e]; [ | reflexivity].
  unfold bind, lift.
  destruct (String.length ser_body <=? MAX_SPAN_META_VALUE_LEN E)%nat; reflexivity.
Qed.

Lemma unpack2_raises (items : list pyval) (e : pyexn) :
  unpack2 items = Raise e -> is_Exception e = true.
Proof.
  destruct items as [|a [|b [|c rest]]]; cbn; intros [= <-]; reflexivity.
Qed.

Lemma status_and_data_raises (result : pyval) (status : pyval) (e : pyexn) :
  status_and_data result = (status, Raise e) -> is_Exception e = true.
Proof.
  unfold status_and_data.
  destruct (isinstance_tuple result); [ | intros [=]].
  destruct (unpack2 (tuple_items result)) as [[s d] | e'] eqn:Hu;
    destruct (getattr result "meta") as [meta | ];
    try destruct (getattr result "body") as [data | ];
    try destruct (getattr meta "status");
    intros [=]; subst; eapply unpack2_raises; eassumption.
Qed.

Lemma data_get_took_raises (data : pyval) (e : pyexn) :
  data_get_took data = Raise e -> is_Exception e = true.
Proof. destruct data; cbn; intros [= <-]; reflexivity. Qed.

Lemma py_int_raises (v : pyval) (e : pyexn) :
  py_int E v = Raise e -> is_Exception e = true.
Proof.
  destruct v; cbn; try (intros [= <-]; reflexivity).
  destruct (int_of_str E s); intros [= <-]; reflexivity.
Qed.

Local Ltac response_events :=
  split; [reflexivity | ];
  repeat first [apply Forall_nil_2 | apply Forall_cons_2];
  unfold response_event; eauto.

(** Response-tag derivation never raises: whatever goes wrong in it is
    caught and logged. *)
Lemma response_tags_spec (result : pyval) :
  snd (response_tags E result) = Return tt
  /\ Forall response_event (fst (response_tags E result)).
Proof.
  unfold response_tags, try_except, bind, lift, when, emit, ret.
  destruct (status_and_data result) as [status [data | e]] eqn:Hsd.
  - destruct (data_get_took data) as [took | e] eqn:Hget.
    + destruct (truthy took).
      * destruct (py_int E took) as [n | e] eqn:Hint.
        -- destruct (truthy status); response_events.
        -- rewrite (py_int_raises _ _ Hint).
           destruct (truthy status); response_events.
      * destruct (truthy status); response_events.
    + rewrite (data_get_took_raises _ _ Hget).
      destruct (truthy status); response_events.
  - rewrite (status_and_data_raises _ _ _ Hsd).
    destruct (truthy status); response_events.
Qed.

(** *** The generator up to its [yield] *)

Lemma request_tags_spec (instance : Instance) (method target : pyval)
  (kwargs : gmap string pyval) (url query enc : string) (bevs : list event) :
  urlparse E target = Return (url, query) ->
  snd (encode_params E (kwargs_get kwargs "params") query) = Return enc ->
  body_tag E instance method (kwargs_get kwargs "body") = (bevs, Return tt) ->
  request_tags E instance [method; target] kwargs
  = (EvSetTagStr METHOD method
     :: EvSetTagStr URL (VStr url)
     :: EvSetTagStr PARAMS (VStr enc)
     :: fst (tag_target_host E (connection_hosts instance))
     ++ (if trace_query_string E then [EvSetTagStr QUERY_STRING (VStr enc)] else [])
     ++ bevs
     ++ [EvSetTag ANALYTICS_SAMPLE_RATE_KEY (get_analytics_sample_rate E);
         EvQuantize],
     Return tt).
Proof.
  intros Hurl Henc Hbody. unfold request_tags.
  rewrite encode_params_spec in Henc. cbn [snd] in Henc.
  destruct (tag_target_host_spec (connection_hosts instance)) as [Hh _].
  destruct (tag_target_host E (connection_hosts instance)) as [hevs hres].
  cbn [snd fst] in *. subst hres.
  unfold lift, bind, unpack2. rewrite Hurl, encode_params_spec, Henc, Hbody.
  unfold when, emit, ret. destruct (trace_query_string E); cbn. all: reflexivity.
Qed.

Lemma traced_call_spec (func : callee) (args : list pyval)
  (kwargs : gmap string pyval) :
  traced_call func args kwargs
  = (EvCall args kwargs
     :: match func args kwargs with
        | Return _ => []
        | Raise e =>
            if is_transport_error e
            then [EvSetTag STATUS_CODE (status_code_of e); EvSetError 1]
            else []
        end,
     func args kwargs).
Proof.
  unfold traced_call, try_except, call, bind, emit, lift, raise.
  destruct (func args kwargs) as [v | e]; [reflexivity | ].
  destruct (is_transport_error e); reflexivity.
Qed.

(** The generator of a fully traced call whose request-tag derivation
    completes, from its start to the [yield] of line 206. *)
Lemma coro_next_traced (func : callee) (pin : Pin) (instance : Instance)
  (method target : pyval) (kwargs : gmap string pyval)
  (url query enc : string) (bevs : list event) :
  pin_of instance = Some pin -> enabled pin = true -> dropped pin = false ->
  urlparse E target = Return (url, query) ->
  snd (encode_params E (kwargs_get kwargs "params") query) = Return enc ->
  body_tag E instance method (kwargs_get kwargs "body") = (bevs, Return tt) ->
  coro_next E func instance [method; target] kwargs
  = (events_before_call E pin instance method url enc bevs
       ++ events_of_call func [method; target] kwargs,
     match func [method; target] kwargs with
     | Return v => Yielded v YieldTraced
     | Raise e => Raised (leaves_frame "generator" e)
     end).
Proof.
  intros Hpin Hen Hdrop Hurl Henc Hbody.
  unfold coro_next, generator_frame. rewrite Hpin, Hen, Hdrop. cbn [negb].
  rewrite (request_tags_spec _ _ _ _ _ _ _ _ Hurl Henc Hbody).
  rewrite traced_call_spec, span_setup_spec.
  unfold events_before_call, events_before_quantize, events_of_call,
    with_span_until_yield, bind.
  rewrite span_setup_spec. cbn [fst snd].
  destruct (func [method; target] kwargs) as [v | e];
    [ | destruct (is_transport_error e)];
    repeat (progress (cbn [app]; rewrite <- ?app_assoc)); reflexivity.
Qed.

Lemma coro_next_disabled (func : callee) (instance : Instance)
  (args : list pyval) (kwargs : gmap string pyval) :
  pin_of instance = None
  \/ (exists pin, pin_of instance = Some pin /\ enabled pin = false) ->
  coro_next E func instance args kwargs
  = ([EvCall args kwargs],
     match func args kwargs with
     | Return v => Yielded v YieldDisabled
     | Raise e => Raised (leaves_frame "generator" e)
     end).
Proof.
  intros [Hpin | (pin & Hpin & Hen)]; unfold coro_next, generator_frame;
    rewrite Hpin;
    try rewrite Hen; unfold call, bind, emit, lift; cbn;
    destruct (func args kwargs); reflexivity.
Qed.

(** The generator on a trace known to be dropped, from its start to the
    [yield] of line 146. *)
Lemma coro_next_dropped (func : callee) (pin : Pin) (instance : Instance)
  (args : list pyval) (kwargs : gmap string pyval) :
  pin_of instance = Some pin -> enabled pin = true -> dropped pin = true ->
  coro_next E func instance args kwargs
  = (EvTrace "elasticsearch.query" (ext_service E pin) (SpanTypes_ELASTICSEARCH E)
     :: fst (span_setup E pin)
     ++ EvCall args kwargs
     :: match func args kwargs with
        | Return _ => []
        | Raise e => [EvSpanExit (Some e)]
        end,
     match func args kwargs with
     | Return v => Yielded v YieldUnsampled
     | Raise e => Raised (leaves_frame "generator" e)
     end).
Proof.
  intros Hpin Hen Hdrop. unfold coro_next, generator_frame.
  rewrite Hpin, Hen, Hdrop. cbn [negb].
  rewrite span_setup_spec. unfold with_span_until_yield, call, bind, emit, lift.
  cbn [fst snd]. destruct (func args kwargs) as [v | e];
    repeat (progress (cbn [app]; rewrite <- ?app_assoc)); reflexivity.
Qed.

(** *** Resuming the generator *)

Lemma coro_send_spec (site : yield_site) (result : pyval) :
  coro_send E site result = (events_after_yield E site result, Finished).
Proof.
  destruct site; try reflexivity.
  unfold coro_send, generator_frame, events_after_yield.
  destruct (response_tags_spec result) as [Hr _].
  destruct (response_tags E result) as [evs r]. cbn in Hr. subst r. reflexivity.
Qed.

(** *** The adapters, in terms of the generator *)

Lemma sync_adapter_spec (func : callee) (instance : Instance)
  (args : list pyval) (kwargs : gmap string pyval) :
  _perform_request E func instance args kwargs
  = match coro_next E func instance args kwargs with
    | (evs, Yielded result site) =>
        (evs ++ events_after_yield E site result, Return result)
    | (evs, Finished) => (evs, Raise StopIteration)
    | (evs, Raised e) => (evs, Raise e)
    end.
Proof.
  unfold _perform_request.
  destruct (coro_next E func instance args kwargs) as [evs [v site | | e]];
    try reflexivity.
  rewrite coro_send_spec. reflexivity.
Qed.

Lemma async_adapter_spec (func : callee) (instance : Instance)
  (args : list pyval) (kwargs : gmap string pyval) :
  _perform_request_async E func instance args kwargs
  = match coro_next E func instance args kwargs with
    | (evs, Yielded aw site) =>
        match snd (await aw) with
        | Return result =>
            (evs ++ EvAwait aw :: events_after_yield E site result, Return result)
        | Raise e => (evs ++ [EvAwait aw], Raise (leaves_frame "coroutine" e))
        end
    | (evs, Finished) => (evs, Raise (leaves_frame "coroutine" StopIteration))
    | (evs, Raised e) => (evs, Raise (leaves_frame "coroutine" e))
    end.
Proof.
  unfold _perform_request_async, coroutine_frame.
  destruct (coro_next E func instance args kwargs) as [evs [aw site | | e]];
    try reflexivity.
  unfold await, bind, emit, lift, raise.
  destruct aw; try reflexivity.
  destruct o as [result | e]; [ | reflexivity].
  rewrite coro_send_spec. reflexivity.
Qed.

(** *** What the events before and after the call can be *)

Local Ltac by_kind H :=
  eapply Forall_impl; [exact H | ];
  let ev := fresh "ev" in
  intros ev; destruct ev as [ | | k ? | k ? | k ? | | | | | | ];
  try destruct k; cbn; congruence.

Lemma request_events_observed (l : list event) :
  Forall (fun ev => is_request_event ev = true) l ->
  calls l = [] /\ count is_call l = 0 /\ count is_outcome_tag l = 0
  /\ count is_span_exit l = 0 /\ count is_quantize l = 0
  /\ count is_set_error l = 0 /\ tag_values STATUS_CODE l = [].
Proof.
  intros H. repeat split.
  - apply calls_none. by_kind H.
  - apply count_none. by_kind H.
  - apply count_none. by_kind H.
  - apply count_none. by_kind H.
  - apply count_none. by_kind H.
  - apply count_none. by_kind H.
  - induction H as [|ev l Hev _ IH]; [reflexivity | ].
    destruct ev as [ | | k ? | k ? | k ? | | | | | | ]; try destruct k;
      cbn in *; congruence.
Qed.

Lemma after_call_events_observed (l : list event) :
  Forall (fun ev => is_after_call_event ev = true) l ->
  calls l = [] /\ count is_call l = 0 /\ count is_quantize l = 0
  /\ count is_trace l = 0 /\ forall key, tag_str_values key l = [].
Proof.
  intros H. repeat split.
  - apply calls_none. by_kind H.
  - apply count_none. by_kind H.
  - apply count_none. by_kind H.
  - apply count_none. by_kind H.
  - intros key. apply tag_str_values_none. by_kind H.
Qed.

Lemma derivable_pieces (instance : Instance) (args : list pyval)
  (kwargs : gmap string pyval) :
  derivable E instance args kwargs ->
  exists method target url query enc bevs,
    args = [method; target]
    /\ urlparse E target = Return (url, query)
    /\ snd (encode_params E (kwargs_get kwargs "params") query) = Return enc
    /\ body_tag E instance method (kwargs_get kwargs "body") = (bevs, Return tt)
    /\ Forall body_event bevs.
Proof.
  intros (method & target & url & query & -> & Hurl & Henc & Hbody).
  exists method, target, url, query.
  assert (exists enc,
            snd (encode_params E (kwargs_get kwargs "params") query) = Return enc)
    as [enc Henc'].
  { rewrite encode_params_spec. cbn [snd].
    destruct (truthy (kwargs_get kwargs "params")); [auto | eauto]. }
  exists enc. rewrite body_tag_spec.
  destruct (in_GET_POST method).
  - destruct (Hbody eq_refl) as [ser_body ->]. eexists.
    split; [reflexivity | split; [exact Hurl | split; [exact Henc' | ]]].
    split; [reflexivity | ].
    apply Forall_cons_2; [eexists; reflexivity | apply Forall_nil_2].
  - exists [].
    split; [reflexivity | split; [exact Hurl | split; [exact Henc' | ]]].
    split; [reflexivity | apply Forall_nil_2].
Qed.

Lemma events_before_quantize_request (pin : Pin) (instance : Instance)
  (method : pyval) (url enc : string) (bevs : list event) :
  Forall body_event bevs ->
  Forall (fun ev => is_request_event ev = true)
         (events_before_quantize E pin instance method url enc bevs).
Proof.
  intros Hb. unfold events_before_quantize. rewrite span_setup_spec. cbn [fst].
  destruct (tag_target_host_spec (connection_hosts instance)) as [_ Hh].
  apply Forall_cons_2; [reflexivity | ].
  apply Forall_app_2.
  { destruct (negb (Nat.eqb (length (tags pin)) 0));
      repeat (apply Forall_cons_2; [reflexivity | ]); apply Forall_nil_2. }
  repeat (apply Forall_cons_2; [reflexivity | ]).
  apply Forall_app_2.
  { eapply Forall_impl; [exact Hh | ]. intros ev [h ->]. reflexivity. }
  apply Forall_app_2.
  { destruct (trace_query_string E);
      repeat (apply Forall_cons_2; [reflexivity | ]); apply Forall_nil_2. }
  apply Forall_app_2.
  { eapply Forall_impl; [exact Hb | ]. intros ev [v ->]. reflexivity. }
  apply Forall_cons_2; [reflexivity | apply Forall_nil_2].
Qed.

Lemma events_after_yield_after (site : yield_site) (result : pyval) :
  Forall (fun ev => is_after_call_event ev = true)
         (events_after_yield E site result).
Proof.
  destruct site; cbn [events_after_yield].
  - apply Forall_nil_2.
  - apply Forall_cons_2; [reflexivity | apply Forall_nil_2].
  - destruct (response_tags_spec result) as [_ Hr].
    apply Forall_app_2.
    + eapply Forall_impl; [exact Hr | ].
      intros ev [[n ->] | [[msg ->] | [status ->]]]; reflexivity.
    + apply Forall_cons_2; [reflexivity | apply Forall_nil_2].
Qed.

Lemma events_after_traced_call_after (c : convention) (func : callee)
  (args : list pyval) (kwargs : gmap string pyval) :
  Forall (fun ev => is_after_call_event ev = true)
         (events_after_traced_call E c func args kwargs).
Proof.
  unfold events_after_traced_call.
  destruct (func args kwargs) as [v | e].
  - destruct c; [apply events_after_yield_after | ].
    apply Forall_cons_2; [reflexivity | ].
    destruct (snd (await v)); [apply events_after_yield_after | apply Forall_nil_2].
  - destruct (is_transport_error e);
      repeat (apply Forall_cons_2; [reflexivity | ]); apply Forall_nil_2.
Qed.

(** A fully traced call whose request-tag derivation completes, under
    either convention: the events up to the quantizer, the quantizer, the
    call, and the events that follow it; the outcome of the call is handed
    on. *)
Lemma wrapped_traced_events (c : convention) (func : callee) (pin : Pin)
  (instance : Instance) (method target : pyval) (kwargs : gmap string pyval)
  (url query enc : string) (bevs : list event) :
  pin_of instance = Some pin -> enabled pin = true -> dropped pin = false ->
  urlparse E target = Return (url, query) ->
  snd (encode_params E (kwargs_get kwargs "params") query) = Return enc ->
  body_tag E instance method (kwargs_get kwargs "body") = (bevs, Return tt) ->
  wrapped c E func instance [method; target] kwargs
  = (events_before_call E pin instance method url enc bevs
       ++ EvCall [method; target] kwargs
       :: events_after_traced_call E c func [method; target] kwargs,
     relayed c func [method; target] kwargs).
Proof.
  intros Hpin Hen Hdrop Hurl Henc Hbody.
  pose proof (coro_next_traced func pin instance method target kwargs url query
                enc bevs Hpin Hen Hdrop Hurl Henc Hbody) as Hnext.
  unfold events_of_call in Hnext.
  destruct c; cbn [wrapped plain];
    [rewrite sync_adapter_spec | rewrite async_adapter_spec];
    rewrite Hnext;
    unfold relayed, events_after_traced_call;
    destruct (func [method; target] kwargs) as [v | e];
    try destruct (snd (await v)) as [result | e];
    try destruct (is_transport_error e);
    rewrite <- ?app_assoc, ?leaves_frame_twice; reflexivity.
Qed.

Lemma wrapped_traced (c : convention) (func : callee) (pin : Pin)
  (instance : Instance) (method target : pyval) (kwargs : gmap string pyval)
  (url query enc : string) (bevs : list event) :
  pin_of instance = Some pin -> enabled pin = true -> dropped pin = false ->
  urlparse E target = Return (url, query) ->
  snd (encode_params E (kwargs_get kwargs "params") query) = Return enc ->
  body_tag E instance method (kwargs_get kwargs "body") = (bevs, Return tt) ->
  exists tail,
    wrapped c E func instance [method; target] kwargs
    = (events_before_call E pin instance method url enc bevs
         ++ EvCall [method; target] kwargs :: tail,
       relayed c func [method; target] kwargs)
    /\ Forall (fun ev => is_after_call_event ev = true) tail.
Proof.
  intros Hpin Hen Hdrop Hurl Henc Hbody. eexists. split.
  - apply (wrapped_traced_events c func pin instance method target kwargs url
             query enc bevs Hpin Hen Hdrop Hurl Henc Hbody).
  - apply events_after_traced_call_after.
Qed.

(** A call on a trace known to be dropped, under either convention. *)
Lemma wrapped_dropped (c : convention) (func : callee) (pin : Pin)
  (instance : Instance) (args : list pyval) (kwargs : gmap string pyval) :
  pin_of instance = Some pin -> enabled pin = true -> dropped pin = true ->
  wrapped c E func instance args kwargs
  = (EvTrace "elasticsearch.query" (ext_service E pin) (SpanTypes_ELASTICSEARCH E)
     :: fst (span_setup E pin)
     ++ EvCall args kwargs :: events_after_dropped_call c func args kwargs,
     relayed c func args kwargs).
Proof.
  intros Hpin Hen Hdrop.
  destruct c; cbn [wrapped];
    [rewrite sync_adapter_spec | rewrite async_adapter_spec];
    rewrite (coro_next_dropped func pin instance args kwargs Hpin Hen Hdrop);
    unfold events_after_dropped_call, relayed;
    destruct (func args kwargs) as [v | e];
    rewrite ?leaves_frame_twice; try reflexivity.
  - cbn [events_after_yield app]. rewrite <- app_assoc. reflexivity.
  - destruct (snd (await v)) as [result | e];
      cbn [events_after_yield app]; rewrite <- app_assoc; reflexivity.
Qed.

(** A call on an instance without tracing, under either convention. *)
Lemma wrapped_disabled (c : convention) (func : callee) (instance : Instance)
  (args : list pyval) (kwargs : gmap string pyval) :
  pin_of instance = None
  \/ (exists pin, pin_of instance = Some pin /\ enabled pin = false) ->
  wrapped c E func instance args kwargs
  = (EvCall args kwargs
     :: match c, func args kwargs with
        | Async, Return aw => [EvAwait aw]
        | _, _ => []
        end,
     relayed c func args kwargs).
Proof.
  intros Hoff.
  destruct c; cbn [wrapped];
    [rewrite sync_adapter_spec | rewrite async_adapter_spec];
    rewrite (coro_next_disabled func instance args kwargs Hoff);
    unfold relayed;
    destruct (func args kwargs) as [v | e];
    rewrite ?leaves_frame_twice; try reflexivity.
  destruct (snd (await v)); reflexivity.
Qed.

(** Unless the plain call raises [StopIteration], what the wrapped call
    hands on is its outcome. *)
Lemma relayed_plain (c : convention) (func : callee) (args : list pyval)
  (kwargs : gmap string pyval) :
  no_StopIteration (plain c func args kwargs) ->
  relayed c func args kwargs = plain c func args kwargs.
Proof.
  unfold no_StopIteration, relayed.
  destruct c; cbn [plain]; unfold unwrapped_call, unwrapped_call_async;
    destruct (func args kwargs) as [v | e]; intros H;
    try (rewrite leaves_frame_other by (apply H; reflexivity)); try reflexivity.
  destruct (snd (await v)) as [result | e]; [reflexivity | ].
  rewrite leaves_frame_other by (apply H; reflexivity). reflexivity.
Qed.

Lemma span_setup_observed (pin : Pin) :
  Forall (fun ev => is_request_event ev = true) (fst (span_setup E pin)).
Proof.
  rewrite span_setup_spec. cbn [fst].
  destruct (negb (Nat.eqb (length (tags pin)) 0));
    repeat (apply Forall_cons_2; [reflexivity | ]); apply Forall_nil_2.
Qed.

Lemma events_after_dropped_call_after (c : convention) (func : callee)
  (args : list pyval) (kwargs : gmap string pyval) :
  Forall (fun ev => is_after_call_event ev = true)
         (events_after_dropped_call c func args kwargs).
Proof.
  unfold events_after_dropped_call.
  destruct (func args kwargs) as [v | e]; [destruct c | ];
    try destruct (snd (await v));
    repeat (apply Forall_cons_2; [reflexivity | ]); apply Forall_nil_2.
Qed.

(** *** Calls that bypass request-tag derivation *)

(** On a trace known to be dropped the wrapped function is invoked once,
    with the arguments of the call, and its outcome is handed on. *)
Lemma dropped_transparent (c : convention) (func : callee) (pin : Pin)
  (instance : Instance) (args : list pyval) (kwargs : gmap string pyval) :
  pin_of instance = Some pin -> enabled pin = true -> dropped pin = true ->
  transparent (wrapped c E func instance args kwargs)
              (relayed c func args kwargs) args kwargs.
Proof.
  intros Hpin Hen Hdrop. unfold transparent.
  rewrite (wrapped_dropped c func pin instance args kwargs Hpin Hen Hdrop).
  split; [reflexivity | ]. cbn [fst calls].
  rewrite calls_app. cbn [calls].
  destruct (request_events_observed _ (span_setup_observed pin)) as [-> _].
  destruct (after_call_events_observed _
              (events_after_dropped_call_after c func args kwargs)) as [-> _].
  reflexivity.
Qed.

(** *** The request tags *)

Lemma tag_str_values_single (key k : tag_key) (v : pyval) :
  tag_str_values key [EvSetTagStr k v] = if tag_key_eqb k key then [v] else [].
Proof. cbn. destruct (tag_key_eqb k key); reflexivity. Qed.

(** What [set_tag_str] gives to the url, params and body tags up to the
    quantizer. *)
Lemma tag_str_values_before_quantize (pin : Pin) (instance : Instance)
  (method : pyval) (url enc : string) (bevs : list event) :
  Forall body_event bevs ->
  let evs := events_before_quantize E pin instance method url enc bevs in
  tag_str_values URL evs = [VStr url]
  /\ tag_str_values PARAMS evs = [VStr enc]
  /\ tag_str_values BODY evs = tag_str_values BODY bevs.
Proof.
  intros Hb evs. subst evs. unfold events_before_quantize.
  rewrite span_setup_spec. cbn [fst].
  destruct (tag_target_host_spec (connection_hosts instance)) as [_ Hh].
  assert (Hhosts : forall key, key <> TARGET_HOST ->
            tag_str_values key (fst (tag_target_host E (connection_hosts instance)))
            = []).
  { intros key Hk. apply tag_str_values_none.
    eapply Forall_impl; [exact Hh | ]. intros ev [h ->]. cbn.
    destruct key; try reflexivity. contradiction. }
  assert (Hbody : forall key, key <> BODY -> tag_str_values key bevs = []).
  { intros key Hk. apply tag_str_values_none.
    eapply Forall_impl; [exact Hb | ]. intros ev [v ->]. cbn.
    destruct key; try reflexivity. contradiction. }
  repeat split;
    cbn [tag_str_values]; rewrite !tag_str_values_app; cbn [tag_str_values];
    rewrite !tag_str_values_app;
    rewrite ?(Hhosts URL), ?(Hhosts PARAMS), ?(Hhosts BODY),
            ?(Hbody URL), ?(Hbody PARAMS) by discriminate;
    destruct (negb (Nat.eqb (length (tags pin)) 0)), (trace_query_string E);
    cbn; rewrite ?app_nil_r; reflexivity.
Qed.

(** The tags set by [set_tag_str] over a whole fully traced call are those
    set up to the quantizer. *)
Lemma tag_str_values_traced (c : convention) (func : callee) (pin : Pin)
  (instance : Instance) (method target : pyval) (kwargs : gmap string pyval)
  (url query enc : string) (bevs : list event) (key : tag_key) :
  pin_of instance = Some pin -> enabled pin = true -> dropped pin = false ->
  urlparse E target = Return (url, query) ->
  snd (encode_params E (kwargs_get kwargs "params") query) = Return enc ->
  body_tag E instance method (kwargs_get kwargs "body") = (bevs, Return tt) ->
  tag_str_values key (fst (wrapped c E func instance [method; target] kwargs))
  = tag_str_values key (events_before_quantize E pin instance method url enc bevs).
Proof.
  intros Hpin Hen Hdrop Hurl Henc Hbody.
  destruct (wrapped_traced c func pin instance method target kwargs url query
              enc bevs Hpin Hen Hdrop Hurl Henc Hbody) as (tail & -> & Htail).
  cbn [fst]. unfold events_before_call.
  rewrite !tag_str_values_app. cbn [tag_str_values].
  destruct (after_call_events_observed _ Htail) as (_ & _ & _ & _ & ->).
  rewrite !app_nil_r. reflexivity.
Qed.

Lemma in_GET_POST_iff (method : pyval) :
  in_GET_POST method = true <-> method = VStr "GET" \/ method = VStr "POST".
Proof.
  unfold in_GET_POST, eq_str. split.
  - destruct method; try discriminate. intros H.
    apply orb_true_iff in H. destruct H as [H | H];
      apply String.eqb_eq in H; subst; auto.
  - intros [-> | ->]; reflexivity.
Qed.

Lemma append_assoc (s1 s2 s3 : string) :
  s1 +:+ (s2 +:+ s3) = (s1 +:+ s2) +:+ s3.
Proof.
  induction s1 as [|a s1 IH]; [reflexivity | ].
  change (String a (s1 +:+ (s2 +:+ s3)) = String a ((s1 +:+ s2) +:+ s3)).
  rewrite IH. reflexivity.
Qed.

(** The placeholder states the size and the limit. *)
Lemma body_placeholder_contains (size limit : nat) :
  contains (body_placeholder size limit) (str_nat size)
  /\ contains (body_placeholder size limit) (str_nat limit).
Proof.
  unfold contains, body_placeholder. split.
  - exists "<body size ", (" exceeds limit of " +:+ str_nat limit +:+ ">").
    reflexivity.
  - exists ("<body size " +:+ str_nat size +:+ " exceeds limit of "), ">".
    rewrite <- !append_assoc. reflexivity.
Qed.

(** C4.  In a fully traced call whose request-tag derivation completes,
    under either convention: if the method is GET or POST and the serialized
    body has length [L], the body tag is set once, to the serialized body
    when [L <= C] and to a placeholder that states both [L] and [C] when
    [L > C], [C] being the maximum length of a span tag value; if the method
    is neither GET nor POST, the body tag is not set. *)
Theorem body_size_policy (c : convention) (func : callee) (instance : Instance)
  (method target : pyval) (kwargs : gmap string pyval) :
  fully_traced instance ->
  derivable E instance [method; target] kwargs ->
  let evs := fst (wrapped c E func instance [method; target] kwargs) in
  let C := MAX_SPAN_META_VALUE_LEN E in
  (method = VStr "GET" \/ method = VStr "POST" ->
   forall ser_body,
     dumps instance (kwargs_get kwargs "body") = Return ser_body ->
     let L := String.length ser_body in
     (L <= C -> tag_str_values BODY evs = [VStr ser_body])
     /\ (C < L ->
         tag_str_values BODY evs = [VStr (body_placeholder L C)]
         /\ contains (body_placeholder L C) (str_nat L)
         /\ contains (body_placeholder L C) (str_nat C)))
  /\ (method <> VStr "GET" -> method <> VStr "POST" ->
      tag_str_values BODY evs = []).
Proof.
  intros (pin & Hpin & Hen & Hdrop) Hder evs C. subst evs C.
  destruct (derivable_pieces _ _ _ Hder)
    as (method' & target' & url & query & enc & bevs
        & [= <- <-] & Hurl & Henc & Hbody & Hbevs).
  rewrite (tag_str_values_traced c func pin instance method target kwargs url
             query enc bevs BODY Hpin Hen Hdrop Hurl Henc Hbody).
  destruct (tag_str_values_before_quantize pin instance method url enc bevs Hbevs)
    as (_ & _ & ->).
  rewrite body_tag_spec in Hbody. split.
  - intros Hm ser_body Hdumps L. subst L.
    apply in_GET_POST_iff in Hm. rewrite Hm, Hdumps in Hbody.
    injection Hbody as <-. unfold body_tag_value. cbn [tag_str_values tag_key_eqb].
    split.
    + intros Hle. apply Nat.leb_le in Hle. rewrite Hle. reflexivity.
    + intros Hlt. apply Nat.leb_gt in Hlt. rewrite Hlt.
      split; [reflexivity | apply body_placeholder_contains].
  - intros Hget Hpost.
    destruct (in_GET_POST method) eqn:Hm.
    + apply in_GET_POST_iff in Hm. tauto.
    + injection Hbody as <-. reflexivity.
Qed.

(** C8.  In a fully traced call whose request-tag derivation completes,
    under either convention: the params tag is set once, to the URL-encoding
    of the [params] keyword argument when the call supplies query parameters
    (the argument is present and not empty), and to the query string of the
    target otherwise; the url tag is set once, to the path of the target. *)
Theorem query_parameter_precedence (c : convention) (func : callee)
  (instance : Instance) (method target : pyval) (kwargs : gmap string pyval)
  (url query : string) :
  fully_traced instance ->
  derivable E instance [method; target] kwargs ->
  urlparse E target = Return (url, query) ->
  let evs := fst (wrapped c E func instance [method; target] kwargs) in
  let params := kwargs_get kwargs "params" in
  (truthy params = true ->
   forall enc, urlencode E params = Return enc ->
               tag_str_values PARAMS evs = [VStr enc])
  /\ (truthy params = false -> tag_str_values PARAMS evs = [VStr query])
  /\ tag_str_values URL evs = [VStr url].
Proof.
  intros (pin & Hpin & Hen & Hdrop) Hder Hurl evs params. subst evs params.
  destruct (derivable_pieces _ _ _ Hder)
    as (method' & target' & url' & query' & enc' & bevs
        & [= <- <-] & Hurl' & Henc & Hbody & Hbevs).
  rewrite Hurl in Hurl'. injection Hurl' as <- <-.
  rewrite !(tag_str_values_traced c func pin instance method target kwargs url
              query enc' bevs _ Hpin Hen Hdrop Hurl Henc Hbody).
  destruct (tag_str_values_before_quantize pin instance method url enc' bevs Hbevs)
    as (-> & -> & _).
  rewrite encode_params_spec in Henc. cbn [snd] in Henc.
  split; [ | split; [ | reflexivity]].
  - intros Ht enc Hencode. rewrite Ht, Hencode in Henc.
    injection Henc as <-. reflexivity.
  - intros Ht. rewrite Ht in Henc. injection Henc as <-. reflexivity.
Qed.

(** *** The sampling short-circuit *)

Lemma dropped_iff (pin : Pin) :
  dropped pin = true <-> explicitly_non_positive pin.
Proof.
  unfold dropped, explicitly_non_positive.
  destruct (sampling_priority pin) as [p | ]; split.
  - intros H. exists p. split; [reflexivity | apply Z.leb_le, H].
  - intros (q & [= <-] & H). apply Z.leb_le, H.
  - discriminate.
  - intros (q & [=] & _).
Qed.

Lemma count_one_more (p : event -> bool) (l1 l2 : list event) (ev : event) :
  p ev = true -> count p (l1 ++ ev :: l2) <> 0.
Proof. intros H. rewrite count_app, count_cons, H. lia. Qed.

(** *** The place of the quantizer *)

(** C9, as amended.  In a fully traced call whose request-tag derivation
    completes, under either convention, the quantizer is applied exactly
    once, at the end of request-tag derivation and immediately before the
    call is delegated: only the creation of the span and request tags come
    before it, and what is derived from the outcome of the call (status
    code, took metric, error flag) and the closing of the span come after
    the call. *)
Theorem quantizer_ordering (c : convention) (func : callee) (instance : Instance)
  (args : list pyval) (kwargs : gmap string pyval) :
  fully_traced instance ->
  derivable E instance args kwargs ->
  exists pre post,
    fst (wrapped c E func instance args kwargs)
    = pre ++ [EvQuantize; EvCall args kwargs] ++ post
    /\ Forall (fun ev => is_request_event ev = true) pre
    /\ Forall (fun ev => is_after_call_event ev = true) post.
Proof.
  intros (pin & Hpin & Hen & Hdrop) Hder.
  destruct (derivable_pieces instance args kwargs Hder)
    as (method & target & url & query & enc & bevs
        & -> & Hurl & Henc & Hbody & Hbevs).
  destruct (wrapped_traced c func pin instance method target kwargs url query
              enc bevs Hpin Hen Hdrop Hurl Henc Hbody) as (tail & -> & Htail).
  exists (events_before_quantize E pin instance method url enc bevs), tail.
  split; [ | split; [ | exact Htail]].
  - cbn [fst]. unfold events_before_call. rewrite <- app_assoc. reflexivity.
  - apply events_before_quantize_request, Hbevs.
Qed.

(** *** The span is closed by the [with] block *)

Local Abbreviation inner := (Forall (fun ev => is_inner_event ev = true)).

Lemma bind_inner {A B : Type} (m : M A) (k : A -> M B) :
  inner (fst m) -> (forall a, inner (fst (k a))) -> inner (fst (bind m k)).
Proof.
  intros Hm Hk. destruct m as [evs [a | e]]; cbn in *; [ | exact Hm].
  specialize (Hk a). destruct (k a) as [evs' r]. cbn in *.
  apply Forall_app_2; assumption.
Qed.

Lemma try_except_inner {A : Type} (body : M A) (catches : pyexn -> bool)
  (handler : pyexn -> M A) :
  inner (fst body) -> (forall e, inner (fst (handler e))) ->
  inner (fst (try_except body catches handler)).
Proof.
  intros Hb Hh. destruct body as [evs [a | e]]; cbn in *; [exact Hb | ].
  destruct (catches e); [ | exact Hb].
  specialize (Hh e). destruct (handler e) as [evs' r]. cbn in *.
  apply Forall_app_2; assumption.
Qed.

Local Ltac inner_leaf :=
  first [ apply Forall_nil_2
        | apply Forall_cons_2; [reflexivity | apply Forall_nil_2] ].

Lemma call_inner (func : callee) (args : list pyval) (kwargs : gmap string pyval) :
  inner (fst (call func args kwargs)).
Proof.
  unfold call. apply bind_inner; [inner_leaf | intros _; inner_leaf].
Qed.

Lemma traced_call_inner (func : callee) (args : list pyval)
  (kwargs : gmap string pyval) :
  inner (fst (traced_call func args kwargs)).
Proof.
  unfold traced_call. apply try_except_inner; [apply call_inner | ].
  intros e. repeat (apply bind_inner; [inner_leaf | intros _]). inner_leaf.
Qed.

Lemma span_setup_inner (pin : Pin) : inner (fst (span_setup E pin)).
Proof.
  rewrite span_setup_spec. cbn [fst].
  destruct (negb (Nat.eqb (length (tags pin)) 0));
    repeat (apply Forall_cons_2; [reflexivity | ]); apply Forall_nil_2.
Qed.

Lemma request_tags_inner (instance : Instance) (args : list pyval)
  (kwargs : gmap string pyval) :
  inner (fst (request_tags E instance args kwargs)).
Proof.
  unfold request_tags.
  apply bind_inner; [inner_leaf | intros [method target]].
  apply bind_inner; [inner_leaf | intros [url query]].
  apply bind_inner.
  { rewrite encode_params_spec. inner_leaf. }
  intros enc.
  repeat (apply bind_inner; [inner_leaf | intros _]).
  apply bind_inner.
  { destruct (tag_target_host_spec (connection_hosts instance)) as [_ Hh].
    eapply Forall_impl; [exact Hh | ]. intros ev [h ->]. reflexivity. }
  intros _. apply bind_inner.
  { unfold when. destruct (trace_query_string E); inner_leaf. }
  intros _. apply bind_inner.
  { rewrite body_tag_spec.
    destruct (in_GET_POST method); [ | inner_leaf].
    destruct (dumps instance (kwargs_get kwargs "body")); inner_leaf. }
  intros _. apply bind_inner; [inner_leaf | intros _; inner_leaf].
Qed.

Lemma count_inner (l : list event) :
  inner l -> count is_trace l = 0 /\ count is_span_exit l = 0.
Proof.
  intros H. split; apply count_none;
    (eapply Forall_impl; [exact H | ]); intros ev; unfold is_inner_event;
    destruct (is_trace ev), (is_span_exit ev); cbn; congruence.
Qed.

(** Leaving the [with] block on an exception closes the span; suspending
    inside it does not. *)
Lemma with_span_until_yield_counts (opened : event) (site : yield_site)
  (body : M pyval) :
  is_trace opened = true -> is_span_exit opened = false -> inner (fst body) ->
  let run := generator_frame (with_span_until_yield opened site body) in
  count is_trace (fst run) = 1
  /\ match snd run with
     | Yielded v site' =>
         site' = site /\ snd body = Return v /\ count is_span_exit (fst run) = 0
     | Raised e => count is_span_exit (fst run) = 1
     | Finished => False
     end.
Proof.
  intros Ht Hx Hb. destruct (count_inner _ Hb) as [Hbt Hbx].
  destruct body as [evs [v | e]];
    cbn [with_span_until_yield generator_frame fst snd] in *.
  - rewrite !count_cons, Ht, Hx, Hbt, Hbx. auto.
  - rewrite !count_cons, !count_app, !count_cons, Ht, Hx, Hbt, Hbx. auto.
Qed.

Lemma events_after_yield_exits (site : yield_site) (result : pyval) :
  count is_span_exit (events_after_yield E site result)
  = match site with YieldDisabled => 0 | _ => 1 end
  /\ count is_trace (events_after_yield E site result) = 0.
Proof.
  destruct site; cbn [events_after_yield]; try (split; reflexivity).
  destruct (response_tags_spec result) as [_ Hr].
  rewrite !count_app, !count_cons, !count_nil.
  rewrite !count_none; [split; reflexivity | | ];
    (eapply Forall_impl; [exact Hr | ]);
    intros ev [[n ->] | [[msg ->] | [status ->]]]; reflexivity.
Qed.

Lemma bind_call_returns {A : Type} (m : M A) (k : A -> M pyval) (v : pyval)
  (o : outcome) :
  (forall a, snd (k a) = o) -> snd (bind m k) = Return v -> o = Return v.
Proof.
  intros Hk. destruct m as [evs [a | e]]; cbn; [ | discriminate].
  specialize (Hk a). destruct (k a) as [evs' r]. cbn in *. congruence.
Qed.

(** A span is created exactly when tracing is enabled, and every span the
    routine creates is closed exactly once by the time the wrapped call
    returns or raises: under the synchronous convention on every path, and
    under the asynchronous one on every path but that of an [await] that
    raises. *)
Lemma span_closed_once (c : convention) (func : callee) (instance : Instance)
  (args : list pyval) (kwargs : gmap string pyval) :
  let evs := fst (wrapped c E func instance args kwargs) in
  count is_trace evs
  = match pin_of instance with
    | Some pin => if enabled pin then 1 else 0
    | None => 0
    end
  /\ (outcome_seen_by_routine c func args kwargs ->
      count is_span_exit evs = count is_trace evs).
Proof.
  intros evs. subst evs.
  assert (Hoff : pin_of instance = None
                 \/ (exists pin, pin_of instance = Some pin /\ enabled pin = false) ->
                 count is_span_exit (fst (wrapped c E func instance args kwargs)) = 0
                 /\ count is_trace (fst (wrapped c E func instance args kwargs)) = 0).
  { intros H. rewrite (wrapped_disabled c func instance args kwargs H). cbn [fst].
    destruct c, (func args kwargs); split; reflexivity. }
  destruct (pin_of instance) as [pin | ] eqn:Hpin.
  2:{ destruct Hoff as [-> ->]; auto. }
  destruct (enabled pin) eqn:Hen.
  2:{ destruct Hoff as [-> ->]; eauto. }
  clear Hoff.
  assert (Hnext : exists opened site body,
            coro_next E func instance args kwargs
            = generator_frame (with_span_until_yield opened site body)
            /\ is_trace opened = true /\ is_span_exit opened = false
            /\ inner (fst body) /\ site <> YieldDisabled
            /\ (forall v, snd body = Return v -> func args kwargs = Return v)).
  { unfold coro_next. rewrite Hpin, Hen. cbn [negb].
    destruct (dropped pin); do 3 eexists;
      (split; [reflexivity | ]); (split; [reflexivity | ]);
      (split; [reflexivity | ]); (split; [ | split; [discriminate | ]]).
    - apply bind_inner; [apply span_setup_inner | intros _; apply call_inner].
    - intros v Hv.
      apply (bind_call_returns _ _ v (func args kwargs)) in Hv; [exact Hv | ].
      intros ?. unfold call, bind, emit, lift.
      destruct (func args kwargs); reflexivity.
    - apply bind_inner; [apply span_setup_inner | intros _].
      apply bind_inner; [apply request_tags_inner | intros _].
      apply traced_call_inner.
    - intros v Hv.
      apply (bind_call_returns _ _ v
               (snd (bind (request_tags E instance args kwargs)
                          (fun _ => traced_call func args kwargs)))) in Hv;
        [ | intros ?; reflexivity].
      apply (bind_call_returns _ _ v (func args kwargs)) in Hv; [exact Hv | ].
      intros ?. rewrite traced_call_spec. reflexivity. }
  destruct Hnext as (opened & site & body & Hnext & Ht & Hx & Hb & Hsite & Hret).
  pose proof (with_span_until_yield_counts opened site body Ht Hx Hb) as Hc.
  cbv zeta in Hc. rewrite <- Hnext in Hc. destruct Hc as [Hc1 Hc2].
  destruct c; cbn [wrapped];
    [rewrite sync_adapter_spec | rewrite async_adapter_spec];
    destruct (coro_next E func instance args kwargs) as [evs [v site' | | e]];
    cbn [fst snd] in *; try contradiction; try (split; congruence).
  - destruct Hc2 as (-> & Hv & Hc2).
    destruct (events_after_yield_exits site v) as [Hx1 Ht1].
    rewrite !count_app, Hc1, Hc2, Hx1, Ht1. destruct site; try contradiction; auto.
  - destruct Hc2 as (-> & Hv & Hc2).
    unfold outcome_seen_by_routine. rewrite (Hret v Hv).
    destruct (snd (await v)) as [result | e]; cbn [fst].
    + destruct (events_after_yield_exits site result) as [Hx1 Ht1].
      rewrite !count_app, !count_cons, Hc1, Hc2, Hx1, Ht1.
      cbn [is_span_exit is_trace]. destruct site; try contradiction; auto.
    + rewrite !count_app, !count_cons, !count_nil, Hc1.
      cbn [is_trace]. split; [lia | ]. intros [result [=]].
Qed.

(** *** Error tagging *)

(** A failure raised by the call inside the routine: it is re-raised and
    leaves the generator, and
    when it is a transport error the status code it carries (500 if it
    carries none) is tagged and the error flag set; no other failure sets
    the flag. *)
Lemma error_tagging_in_routine (c : convention) (func : callee)
  (instance : Instance) (args : list pyval) (kwargs : gmap string pyval)
  (e : pyexn) :
  fully_traced instance ->
  derivable E instance args kwargs ->
  func args kwargs = Raise e ->
  let run := wrapped c E func instance args kwargs in
  snd run = Raise (leaves_frame "generator" e)
  /\ tag_values STATUS_CODE (fst run)
     = (if is_transport_error e then [status_code_of e] else [])
  /\ count is_set_error (fst run) = (if is_transport_error e then 1 else 0).
Proof.
  intros (pin & Hpin & Hen & Hdrop) Hder Hfunc run. subst run.
  destruct (derivable_pieces instance args kwargs Hder)
    as (method & target & url & query & enc & bevs
        & -> & Hurl & Henc & Hbody & Hbevs).
  rewrite (wrapped_traced_events c func pin instance method target kwargs url
             query enc bevs Hpin Hen Hdrop Hurl Henc Hbody).
  destruct (request_events_observed _
              (events_before_quantize_request pin instance method url enc bevs
                 Hbevs)) as (_ & _ & _ & _ & _ & Herr & Hcode).
  cbn [fst snd]. unfold events_before_call, events_after_traced_call, relayed.
  rewrite Hfunc, !tag_values_app, !count_app, !count_cons, Hcode, Herr.
  split; [reflexivity | ].
  destruct (is_transport_error e); split; reflexivity.
Qed.

(** A failure raised by the [await] of the asynchronous adapter: it reaches
    the caller from the [await], the generator is not resumed, and nothing
    is recorded on the span, which is created and not closed. *)
Lemma await_failure_bypasses_routine (func : callee) (instance : Instance)
  (args : list pyval) (kwargs : gmap string pyval) (aw : pyval) (e : pyexn) :
  fully_traced instance ->
  derivable E instance args kwargs ->
  func args kwargs = Return aw ->
  snd (await aw) = Raise e ->
  let run := _perform_request_async E func instance args kwargs in
  snd run = Raise (leaves_frame "coroutine" e)
  /\ tag_values STATUS_CODE (fst run) = []
  /\ count is_set_error (fst run) = 0
  /\ count is_trace (fst run) = 1
  /\ count is_span_exit (fst run) = 0.
Proof.
  intros (pin & Hpin & Hen & Hdrop) Hder Hfunc Hawait run. subst run.
  destruct (span_closed_once Async func instance args kwargs) as [Htrace _].
  cbn [wrapped] in Htrace. rewrite Hpin, Hen in Htrace.
  split; [ | split; [ | split; [ | split; [exact Htrace | ]]]];
    destruct (derivable_pieces instance args kwargs Hder)
      as (method & target & url & query & enc & bevs
          & -> & Hurl & Henc & Hbody & Hbevs);
    pose proof (wrapped_traced_events Async func pin instance method target
                  kwargs url query enc bevs Hpin Hen Hdrop Hurl Henc Hbody)
      as Hrun;
    cbn [wrapped] in Hrun; rewrite Hrun;
    destruct (request_events_observed _
                (events_before_quantize_request pin instance method url enc
                   bevs Hbevs)) as (_ & _ & _ & Hexit & _ & Herr & Hcode);
    cbn [fst snd]; unfold events_before_call, events_after_traced_call,
      relayed;
    rewrite Hfunc, Hawait, ?tag_values_app, ?count_app, ?count_cons,
      ?Hcode, ?Herr, ?Hexit; reflexivity.
Qed.

End InterceptorFacts.

(** ** The claims on concrete calls *)

Import Interceptor Scenario.

Lemma body_size_policy_witness :
  tag_str_values BODY
    (fst (_perform_request (env 16) (returning search_hits)
            (instance (Some (traced_pin None))) index_args index_kwargs))
  = [VStr "<body size 21 exceeds limit of 16>"]
  /\ tag_str_values BODY
       (fst (_perform_request (env 32) (returning search_hits)
               (instance (Some (traced_pin None))) index_args index_kwargs))
     = [VStr "{name: elasticsearch}"]
  /\ tag_str_values BODY
       (fst (_perform_request_async (env 16) (async_returning search_hits)
               (instance (Some (traced_pin None)))
               [VStr "DELETE"; VStr "/my-index"] index_kwargs))
     = [].
Proof.
  assert (Hpin : fully_traced (instance (Some (traced_pin None)))).
  { exists (traced_pin None). repeat split. }
  assert (Hder : forall limit method target,
            derivable (env limit) (instance (Some (traced_pin None)))
                      [VStr method; VStr target] index_kwargs).
  { intros limit method target.
    exists (VStr method), (VStr target),
           (fst (split_query target)), (snd (split_query target)).
    split; [reflexivity | split; [cbn; destruct (split_query target); reflexivity | ]].
    split; [intros H; vm_compute in H; discriminate H | ].
    intros _. exists "{name: elasticsearch}". reflexivity. }
  split; [ | split].
  - destruct (body_size_policy (env 16) Sync (returning search_hits)
                (instance (Some (traced_pin None)))
                (VStr "POST") (VStr "/my-index/_doc?refresh=true") index_kwargs
                Hpin (Hder 16 _ _)) as [H _].
    destruct (H (or_intror eq_refl) "{name: elasticsearch}" eq_refl) as [_ H2].
    apply H2. vm_compute. lia.
  - destruct (body_size_policy (env 32) Sync (returning search_hits)
                (instance (Some (traced_pin None)))
                (VStr "POST") (VStr "/my-index/_doc?refresh=true") index_kwargs
                Hpin (Hder 32 _ _)) as [H _].
    destruct (H (or_intror eq_refl) "{name: elasticsearch}" eq_refl) as [H1 _].
    apply H1. vm_compute. lia.
  - destruct (body_size_policy (env 16) Async (async_returning search_hits)
                (instance (Some (traced_pin None)))
                (VStr "DELETE") (VStr "/my-index") index_kwargs
                Hpin (Hder 16 _ _)) as [_ H].
    apply H; discriminate.
Defined.

Lemma query_parameter_precedence_witness :
  tag_str_values PARAMS
    (fst (_perform_request (env 16) (returning search_hits)
            (instance (Some (traced_pin None))) search_args search_kwargs))
  = [VStr "q=foo"]
  /\ tag_str_values PARAMS
       (fst (_perform_request (env 16) (returning search_hits)
               (instance (Some (traced_pin None))) index_args index_kwargs))
     = [VStr "refresh=true"]
  /\ tag_str_values URL
       (fst (_perform_request (env 16) (returning search_hits)
               (instance (Some (traced_pin None))) index_args index_kwargs))
     = [VStr "/my-index/_doc"].
Proof.
  assert (Hpin : fully_traced (instance (Some (traced_pin None)))).
  { exists (traced_pin None). repeat split. }
  split.
  - refine (proj1 (query_parameter_precedence (env 16) Sync
                     (returning search_hits) (instance (Some (traced_pin None)))
                     (VStr "GET") (VStr "/my-index/_search") search_kwargs
                     "/my-index/_search" "" Hpin _ eq_refl) eq_refl "q=foo" eq_refl).
    exists (VStr "GET"), (VStr "/my-index/_search"), "/my-index/_search", "".
    split; [reflexivity | split; [reflexivity | split]].
    + intros _. exists "q=foo". reflexivity.
    + intros _. exists "null". reflexivity.
  - assert (Hder : derivable (env 16) (instance (Some (traced_pin None)))
                             index_args index_kwargs).
    { exists (VStr "POST"), (VStr "/my-index/_doc?refresh=true"),
             "/my-index/_doc", "refresh=true".
      split; [reflexivity | split; [reflexivity | split]].
      - intros H. vm_compute in H. discriminate H.
      - intros _. exists "{name: elasticsearch}". reflexivity. }
    destruct (query_parameter_precedence (env 16) Sync
                (returning search_hits) (instance (Some (traced_pin None)))
                (VStr "POST") (VStr "/my-index/_doc?refresh=true") index_kwargs
                "/my-index/_doc" "refresh=true" Hpin Hder eq_refl)
      as (_ & H2 & H3).
    split; [apply H2; reflexivity | exact H3].
Defined.

(** C5, as stated, fails: with sampling priority 0 assigned (the automatic
    reject), tag derivation is skipped although the priority is not
    negative. *)
Lemma sampling_short_circuit_counterexample :
  ~ (derivation_skipped
       (fst (_perform_request (env 16) (returning search_hits)
               (instance (Some (traced_pin (Some 0%Z))))
               search_args search_kwargs))
     <-> explicitly_negative (traced_pin (Some 0%Z))).
Proof.
  intros [H _]. destruct H as (p & Hp & Hneg); [split; reflexivity | ].
  injection Hp as <-. lia.
Qed.

(** C9, as stated, fails: in a successful search the quantizer runs before
    the call, and the took metric is recorded after it, just before the
    span closes. *)
Lemma quantizer_ordering_counterexample :
  ~ quantize_is_post_process
      (fst (_perform_request (env 16) (returning search_hits)
              (instance (Some (traced_pin None))) search_args search_kwargs)).
Proof.
  intros (pre & exc & H & _).
  apply (f_equal (fun l => List.rev l !! 1)) in H.
  rewrite List.rev_app_distr in H. vm_compute in H. discriminate H.
Qed.

Lemma quantizer_ordering_witness :
  exists pre post,
    fst (_perform_request_async (env 16) (async_returning search_hits)
           (instance (Some (traced_pin None))) search_args search_kwargs)
    = pre ++ [EvQuantize; EvCall search_args search_kwargs] ++ post
    /\ Forall (fun ev => is_request_event ev = true) pre
    /\ Forall (fun ev => is_after_call_event ev = true) post.
Proof.
  apply (quantizer_ordering (env 16) Async (async_returning search_hits)
           (instance (Some (traced_pin None))) search_args search_kwargs).
  - exists (traced_pin None). repeat split.
  - exists (VStr "GET"), (VStr "/my-index/_search"), "/my-index/_search", "".
    split; [reflexivity | split; [reflexivity | split]].
    + intros _. exists "q=foo". reflexivity.
    + intros _. exists "null". reflexivity.
Defined.

(** C2 on the asynchronous adapter: the awaited call raises a transport
    error carrying status 404; the failure reaches the caller, but no status
    code is tagged and the error flag is not set, where the synchronous
    adapter tags 404 and sets the flag. *)
Lemma error_tagging_missing_async :
  let run := _perform_request_async (env 16) (async_raising not_found)
               (instance (Some (traced_pin None))) search_args search_kwargs in
  let run_sync := _perform_request (env 16) (raising not_found)
               (instance (Some (traced_pin None))) search_args search_kwargs in
  snd run = Raise not_found
  /\ tag_values STATUS_CODE (fst run) = []
  /\ count is_set_error (fst run) = 0
  /\ snd run_sync = Raise not_found
  /\ tag_values STATUS_CODE (fst run_sync) = [VInt 404]
  /\ count is_set_error (fst run_sync) = 1.
Proof. vm_compute. repeat split. Qed.

(** C3 on the asynchronous adapter: the awaited call raises; the span was
    created and is not closed when the failure reaches the caller, where the
    synchronous adapter closes it. *)
Lemma span_left_open_async :
  let run := _perform_request_async (env 16) (async_raising not_found)
               (instance (Some (traced_pin None))) search_args search_kwargs in
  let run_sync := _perform_request (env 16) (raising not_found)
               (instance (Some (traced_pin None))) search_args search_kwargs in
  snd run = Raise not_found
  /\ count is_trace (fst run) = 1
  /\ count is_span_exit (fst run) = 0
  /\ count is_trace (fst run_sync) = 1
  /\ count is_span_exit (fst run_sync) = 1.
Proof. vm_compute. repeat split. Qed.

(** C1 on a call that passes a third positional argument (the headers of
    [perform_request(method, url, headers, ...)]): without the patch it
    returns [search_hits]; with tracing enabled, [method, target = args]
    raises [ValueError] under either adapter and the wrapped function is
    never invoked, where the routine passes the same arguments through on a
    trace known to be dropped and on an instance without tracing. *)
Lemma transparency_lost_on_third_argument :
  let traced := instance (Some (traced_pin None)) in
  let dropped_trace := instance (Some (traced_pin (Some (-1)%Z))) in
  let too_many := MkExn ValueError 0 [VStr "too many values to unpack"] [] in
  let run := _perform_request (env 16) (returning search_hits) traced
               positional_headers_args ∅ in
  let run_async := _perform_request_async (env 16) (async_returning search_hits)
               traced positional_headers_args ∅ in
  let run_dropped := _perform_request (env 16) (returning search_hits)
               dropped_trace positional_headers_args ∅ in
  let run_off := _perform_request (env 16) (returning search_hits)
               (instance None) positional_headers_args ∅ in
  unwrapped_call (returning search_hits) positional_headers_args ∅
    = Return search_hits
  /\ unwrapped_call_async (async_returning search_hits) positional_headers_args ∅
    = Return search_hits
  /\ snd run = Raise too_many
  /\ calls (fst run) = []
  /\ snd run_async = Raise too_many
  /\ calls (fst run_async) = []
  /\ transparent run_dropped (Return search_hits) positional_headers_args ∅
  /\ transparent run_off (Return search_hits) positional_headers_args ∅.
Proof. vm_compute. repeat split. Qed.

(** C7 on a call that raises [StopIteration], on an instance with no
    tracing handle and on one whose handle is disabled: no span is created
    and the wrapped function is invoked once, but its failure does not
    reach the caller: the call is made in the frame of the generator, and
    the caller gets [RuntimeError("generator raised StopIteration")]; any
    other failure, such as [not_found], is propagated as it is. *)
Lemma disabled_path_loses_StopIteration :
  let became :=
    MkExn (OtherException "RuntimeError") 0
          [VStr "generator raised StopIteration"] [] in
  let run := _perform_request (env 16) (raising StopIteration) (instance None)
               search_args search_kwargs in
  let run_disabled := _perform_request (env 16) (raising StopIteration)
               (instance (Some (MkPin false [] None)))
               search_args search_kwargs in
  let run_other := _perform_request (env 16) (raising not_found) (instance None)
               search_args search_kwargs in
  unwrapped_call (raising StopIteration) search_args search_kwargs
    = Raise StopIteration
  /\ run = ([EvCall search_args search_kwargs], Raise became)
  /\ run_disabled = ([EvCall search_args search_kwargs], Raise became)
  /\ became <> StopIteration
  /\ run_other = ([EvCall search_args search_kwargs], Raise not_found).
Proof. vm_compute. repeat split. discriminate. Qed.

(** * Further properties *)

(** ** Patch state tracker: removing and re-applying *)

Section PatchTrackerMore.
Import Patch.

Local Ltac open_pristine t :=
  destruct t as [[[|]|] [[lT pT]|] [[lA pA]|]];
  unfold pristine, unwrapped, _patch, _unpatch, patch_flag; cbn;
  intros (Hf & HT & HA); try discriminate Hf;
  try (specialize (HT _ eq_refl); cbn in HT; subst);
  try (specialize (HA _ eq_refl); cbn in HA; subst); cbn.

(** X1.  On a module as shipped, removing the patch after applying it
    returns normally and restores every present method to its original
    implementation, with the flag unset; the pin attached to each class
    stays. *)
Theorem unpatch_restores (t : TransportModule) :
  pristine t ->
  snd (_unpatch (_patch t)) = Return tt
  /\ patch_flag (fst (_unpatch (_patch t))) = false
  /\ Transport (fst (_unpatch (_patch t)))
     = (fun cls => MkClass [] true) <$> Transport t
  /\ AsyncTransport (fst (_unpatch (_patch t)))
     = (fun cls => MkClass [] true) <$> AsyncTransport t.
Proof. open_pristine t; auto. Qed.

(** X2.  Removing twice: whatever the module, and whether or not the first
    removal raised, a second removal changes nothing and returns
    normally. *)
Theorem unpatch_twice (t : TransportModule) :
  _unpatch (fst (_unpatch t)) = (fst (_unpatch t), Return tt).
Proof.
  destruct t as [[[|]|] [[[|wT lT] pT]|] [[[|wA lA] pA]|]]; reflexivity.
Qed.

(** X3.  A module that defines neither class is left exactly as it is by
    the patch, and not flagged; in general the flag is set after the patch
    exactly when it was set before or one of the classes is present. *)
Theorem patch_flag_after (t : TransportModule) :
  (Transport t = None -> AsyncTransport t = None -> _patch t = t)
  /\ (patch_flag (_patch t) = true
      <-> patch_flag t = true
          \/ is_Some (Transport t) \/ is_Some (AsyncTransport t)).
Proof.
  split.
  - destruct t as [[[|]|] T A]; cbn; intros -> ->; reflexivity.
  - destruct t as [[[|]|] [cT|] [cA|]]; unfold _patch, patch_flag; cbn;
      (split; [intros H; try discriminate H; eauto
              | intros [H | [[? H] | [? H]]]; try discriminate H; reflexivity]).
Qed.

(** X4.  On a module as shipped, applying the patch again after removing it
    gives the same module as applying it once. *)
Theorem patch_after_unpatch (t : TransportModule) :
  pristine t -> _patch (fst (_unpatch (_patch t))) = _patch t.
Proof. open_pristine t; reflexivity. Qed.

End PatchTrackerMore.

Lemma unpatch_restores_witness :
  let t := Patch.MkModule None (Some (Patch.MkClass [] false))
                          (Some (Patch.MkClass [] false)) in
  snd (Patch._unpatch (Patch._patch t)) = Return tt
  /\ Patch.patch_flag (fst (Patch._unpatch (Patch._patch t))) = false
  /\ Patch.Transport (fst (Patch._unpatch (Patch._patch t)))
     = Some (Patch.MkClass [] true)
  /\ Patch.AsyncTransport (fst (Patch._unpatch (Patch._patch t)))
     = Some (Patch.MkClass [] true).
Proof.
  intros t. apply (unpatch_restores t).
  split; [reflexivity | split]; intros cls [= <-]; reflexivity.
Defined.

Lemma patch_flag_after_witness :
  let t := Patch.MkModule None None None in
  Patch._patch t = t.
Proof.
  intros t. apply (proj1 (patch_flag_after t)); reflexivity.
Defined.

Lemma patch_after_unpatch_witness :
  let t := Patch.MkModule (Some false) None (Some (Patch.MkClass [] false)) in
  Patch._patch (fst (Patch._unpatch (Patch._patch t))) = Patch._patch t.
Proof.
  intros t. apply (patch_after_unpatch t).
  split; [reflexivity | split]; intros cls [= <-]; reflexivity.
Defined.

(** ** Source-file metadata: stability *)

Section SourceFileInfoMore.
Import CIVisibility.

(** X5.  A constructed object is a fixed point of validation: checking it
    again, from whatever working directory, returns it unchanged. *)
Theorem post_init_stable (cwd cwd' : list string)
  (self self' : CISourceFileInfoBase) :
  __post_init__ cwd self = Return self' ->
  __post_init__ cwd' self' = Return self'.
Proof.
  unfold __post_init__. intros H.
  destruct (_check_path cwd self) as [s1 | e] eqn:Hpath; [ | discriminate H].
  destruct (_check_line_numbers s1) as [[] | e] eqn:Hlines; [ | discriminate H].
  injection H as <-.
  assert (Habs : _check_path cwd' s1 = Return s1).
  { unfold _check_path in Hpath |- *.
    destruct (path self) as [ | | | | | | | p | | | ] eqn:Hp; try discriminate Hpath.
    destruct (is_absolute p) eqn:Ha; cbn [negb] in Hpath; injection Hpath as <-.
    - rewrite Hp, Ha. reflexivity.
    - cbn [path]. rewrite absolute_is_absolute. reflexivity. }
  rewrite Habs, Hlines. reflexivity.
Qed.

(** X6.  Whether construction succeeds, and the failure it raises if not,
    do not depend on the working directory; neither do the line numbers of
    the result, nor, when the path passed is absolute, the result itself,
    which is then the object as passed. *)
Theorem post_init_cwd_independent (cwd cwd' : list string)
  (self : CISourceFileInfoBase) :
  match __post_init__ cwd self, __post_init__ cwd' self with
  | Raise e, Raise e' => e = e'
  | Return s, Return s' =>
      start_line s = start_line s' /\ end_line s = end_line s'
      /\ (forall p, path self = VPath p -> is_absolute p = true ->
                    s = self /\ s' = self)
  | _, _ => False
  end.
Proof.
  unfold __post_init__, _check_path.
  destruct self as [pth s e]. cbn [path start_line end_line].
  destruct pth as [ | | | | | | | p | | | ]; cbn; try reflexivity.
  destruct (is_absolute p) eqn:Ha; cbn [negb].
  - destruct (_check_line_numbers (MkInfo (VPath p) s e)) as [[] | err];
      [ | reflexivity].
    repeat split; reflexivity.
  - unfold _check_line_numbers. cbn [start_line end_line].
    destruct (_check_line_number s "start_line") as [[] | err]; [ | reflexivity].
    destruct (_check_line_number e "end_line") as [[] | err]; [ | reflexivity].
    destruct (negb (is_None s) && negb (is_None e)
              && (int_value e <? int_value s)%Z); [reflexivity | ].
    destruct (is_None s && negb (is_None e)); [reflexivity | ].
    split; [reflexivity | split; [reflexivity | ]].
    intros q [= <-] Hq. rewrite Hq in Ha. discriminate Ha.
Qed.

End SourceFileInfoMore.

Lemma post_init_stable_witness :
  CIVisibility.__post_init__ ["srv"]
    (CIVisibility.MkInfo (VPath (MkPath true ["home"; "ci"; "test_api.py"]))
                         (VInt 3) VNone)
  = Return (CIVisibility.MkInfo
              (VPath (MkPath true ["home"; "ci"; "test_api.py"])) (VInt 3) VNone).
Proof.
  apply (post_init_stable ["home"; "ci"] ["srv"]
           (CIVisibility.MkInfo (VPath (MkPath false ["test_api.py"]))
                                (VInt 3) VNone)).
  reflexivity.
Defined.

(** ** CI visibility item identifiers *)

Section ItemIds.
Import CIItems.

Lemma iter_get_parent_id (n : nat) (self : item_id) :
  Nat.iter (S n) get_parent_id self = Nat.iter n get_parent_id (get_parent_id self).
Proof.
  induction n as [|n IH]; [reflexivity | ].
  rewrite Nat.iter_succ, IH, <- Nat.iter_succ. reflexivity.
Qed.

Lemma iter_root (n : nat) (self : item_id) :
  is_root self = true -> Nat.iter n get_parent_id self = self.
Proof.
  intros Hr. induction n as [|n IH]; [reflexivity | ].
  rewrite Nat.iter_succ, IH. destruct self; [reflexivity | discriminate Hr].
Qed.

(** X7.  Following [get_parent_id] from any item reaches a root item after
    as many steps as the item has ancestors below the root, and stays on
    that root from then on: a root item is its own parent. *)
Theorem parent_chain_ends_at_root (self : item_id) (n : nat) :
  depth self <= n ->
  is_root (Nat.iter n get_parent_id self) = true
  /\ Nat.iter n get_parent_id self = Nat.iter (depth self) get_parent_id self
  /\ get_parent_id (Nat.iter n get_parent_id self) = Nat.iter n get_parent_id self.
Proof.
  revert n. induction self as [name | parent IH name]; intros n Hn.
  - rewrite (iter_root n (RootItemId name) eq_refl). auto.
  - cbn [depth] in Hn |- *. destruct n as [|n]; [lia | ].
    rewrite !iter_get_parent_id. cbn [get_parent_id].
    apply IH. lia.
Qed.

End ItemIds.

Lemma parent_chain_ends_at_root_witness :
  let test_id :=
    CIItems.ChildItemId
      (CIItems.ChildItemId (CIItems.RootItemId "module") "suite") "test" in
  Nat.iter 5 CIItems.get_parent_id test_id = CIItems.RootItemId "module".
Proof.
  intros test_id.
  destruct (parent_chain_ends_at_root test_id 5) as (_ & H & _).
  - cbn. lia.
  - rewrite H. reflexivity.
Defined.

(** ** Variant discovery *)

Section Discovery.
Import Resolver.

Variable env : imports.

(** The module a name imports to, if the import succeeds. *)
Local Abbreviation imported name :=
  (match env !! name with Some (Return module) => Some module | _ => None end).

Lemma import_module_cases (name : string) :
  import_module env name
  = match env !! name with
    | Some r => r
    | None => Raise (ModuleNotFoundError name)
    end.
Proof. unfold import_module. destruct (env !! name); reflexivity. Qed.

(** Enumeration over any list of names, when imports fail only with
    [ImportError]: it ends normally, yields the modules that import, in the
    order of the names, and records the version of each of them. *)
Lemma es_modules_from_spec (names : list string) (versions : gmap string pyval) :
  imports_cleanly env ->
  let '(yielded, versions', r) := es_modules_from env names versions in
  r = Return tt
  /\ yielded = omap (fun name => imported name) names
  /\ forall name,
       versions' !! name
       = match imported name with
         | Some module =>
             if bool_decide (name ∈ names) then Some (versionstr_of module)
             else versions !! name
         | None => versions !! name
         end.
Proof.
  intros Hclean. revert versions.
  induction names as [|n rest IH]; intros versions.
  - cbn. repeat split. intros name. destruct (env !! name) as [[m | e] | ]; reflexivity.
  - cbn [es_modules_from]. rewrite import_module_cases.
    destruct (env !! n) as [[m | e] | ] eqn:Hn.
    + specialize (IH (<[n := versionstr_of m]> versions)).
      destruct (es_modules_from env rest (<[n := versionstr_of m]> versions))
        as [[yielded versions'] r].
      destruct IH as (-> & -> & Hv). split; [reflexivity | split].
      * cbn. rewrite Hn. reflexivity.
      * intros name. rewrite Hv.
        destruct (decide (name = n)) as [-> | Hne].
        -- rewrite Hn, lookup_insert_eq.
           rewrite (bool_decide_eq_true_2 (n ∈ n :: rest)) by apply list_elem_of_here.
           destruct (bool_decide (n ∈ rest)); reflexivity.
        -- rewrite lookup_insert_ne by congruence.
           destruct (env !! name) as [[m' | e'] | ]; try reflexivity.
           rewrite (bool_decide_ext (name ∈ n :: rest) (name ∈ rest)); [reflexivity | ].
           rewrite elem_of_cons. tauto.
    + rewrite (Hclean n e Hn). specialize (IH versions).
      destruct (es_modules_from env rest versions) as [[yielded versions'] r].
      destruct IH as (-> & -> & Hv). split; [reflexivity | split].
      * cbn. rewrite Hn. reflexivity.
      * intros name. rewrite Hv.
        destruct (env !! name) as [[m' | e'] | ] eqn:Hname; try reflexivity.
        rewrite (bool_decide_ext (name ∈ n :: rest) (name ∈ rest)); [reflexivity | ].
        rewrite elem_of_cons. split; [intros [-> | H]; [congruence | exact H] | tauto].
    + assert (Hcaught : is_ImportError (ModuleNotFoundError n) = true) by reflexivity.
      rewrite Hcaught. specialize (IH versions).
      destruct (es_modules_from env rest versions) as [[yielded versions'] r].
      destruct IH as (-> & -> & Hv). split; [reflexivity | split].
      * cbn. rewrite Hn. reflexivity.
      * intros name. rewrite Hv.
        destruct (env !! name) as [[m' | e'] | ] eqn:Hname; try reflexivity.
        rewrite (bool_decide_ext (name ∈ n :: rest) (name ∈ rest)); [reflexivity | ].
        rewrite elem_of_cons. split; [intros [-> | H]; [congruence | exact H] | tauto].
Qed.

(** X8.  When imports fail only with [ImportError] (partial installation),
    enumerating the variants ends normally; the modules yielded are the
    known variants that import, in the fixed order of their names; and
    afterwards the recorded versions hold, for each known variant that
    imports, its [__versionstr__] (the empty string if it has none), every
    other entry being as it was. *)
Theorem es_modules_versions (versions : gmap string pyval) :
  imports_cleanly env ->
  snd (_es_modules env versions) = Return tt
  /\ fst (fst (_es_modules env versions))
     = omap (fun name => imported name) module_names
  /\ forall name,
       get_versions_after env versions !! name
       = match imported name with
         | Some module =>
             if bool_decide (name ∈ module_names)
             then Some (default (VStr "") (__versionstr__ module))
             else versions !! name
         | None => versions !! name
         end.
Proof.
  intros Hclean. unfold get_versions_after, _es_modules.
  pose proof (es_modules_from_spec module_names versions Hclean) as H.
  destruct (es_modules_from env module_names versions) as [[yielded versions'] r].
  exact H.
Qed.

(** X9.  Enumerating the variants again (a second [patch()], or an
    [unpatch()]) leaves the recorded versions as the first enumeration left
    them. *)
Theorem es_modules_versions_idempotent (versions : gmap string pyval) :
  imports_cleanly env ->
  get_versions_after env (get_versions_after env versions)
  = get_versions_after env versions.
Proof.
  intros Hclean. apply map_eq. intros name.
  unfold get_versions_after, _es_modules.
  pose proof (es_modules_from_spec module_names versions Hclean) as H1.
  destruct (es_modules_from env module_names versions) as [[y1 v1] r1].
  destruct H1 as (_ & _ & H1). cbn [fst snd].
  pose proof (es_modules_from_spec module_names v1 Hclean) as H2.
  destruct (es_modules_from env module_names v1) as [[y2 v2] r2].
  destruct H2 as (_ & _ & H2). cbn [fst snd].
  rewrite H2, H1.
  destruct (env !! name) as [[m | e] | ]; try reflexivity.
  destruct (bool_decide (name ∈ module_names)); reflexivity.
Qed.

(** X10.  An import that fails with anything but an [ImportError] ends the
    enumeration with that failure as it leaves the generator (itself, unless
    it is a [StopIteration], which leaves as a [RuntimeError]): the variants
    before it have been yielded and recorded as if the names stopped there,
    and the ones after it are neither imported nor recorded. *)
Theorem es_modules_broken_import (before after : list string) (name : string)
  (e : pyexn) (versions : gmap string pyval) :
  module_names = before ++ name :: after ->
  (forall n e', n ∈ before -> env !! n = Some (Raise e') ->
                is_ImportError e' = true) ->
  env !! name = Some (Raise e) ->
  is_ImportError e = false ->
  _es_modules env versions
  = (fst (fst (es_modules_from env before versions)),
     snd (fst (es_modules_from env before versions)),
     Raise (leaves_frame "generator" e)).
Proof.
  intros Hnames Hbefore Hname Hother. unfold _es_modules. rewrite Hnames.
  clear Hnames. revert versions.
  induction before as [|n rest IH]; intros versions.
  - cbn [app es_modules_from]. rewrite import_module_cases, Hname, Hother.
    reflexivity.
  - cbn [app es_modules_from]. rewrite import_module_cases.
    assert (Hrest : forall n' e', n' ∈ rest -> env !! n' = Some (Raise e') ->
                                  is_ImportError e' = true).
    { intros n' e' Hin. apply Hbefore. apply list_elem_of_further, Hin. }
    destruct (env !! n) as [[m | e'] | ] eqn:Hn.
    + rewrite (IH Hrest).
      destruct (es_modules_from env rest (<[n := versionstr_of m]> versions))
        as [[yielded versions'] r]. reflexivity.
    + rewrite (Hbefore n e' (list_elem_of_here _ _) Hn). apply IH, Hrest.
    + assert (Hcaught : is_ImportError (ModuleNotFoundError n) = true) by reflexivity.
      rewrite Hcaught. apply IH, Hrest.
Qed.

End Discovery.

Lemma es_modules_versions_witness :
  let env : gmap string (result pyexn Resolver.ESModule) :=
    {[ "elasticsearch7" := Return (Resolver.MkESModule (Some (VStr "7.17.9")) None);
       "opensearchpy" := Return (Resolver.MkESModule None None);
       "elasticsearch" := Raise (MkExn (OtherException "ImportError") 0 [] []) ]} in
  Resolver.get_versions_after env ∅ !! "elasticsearch7" = Some (VStr "7.17.9")
  /\ Resolver.get_versions_after env ∅ !! "opensearchpy" = Some (VStr "")
  /\ Resolver.get_versions_after env ∅ !! "elasticsearch" = None.
Proof.
  intros env.
  assert (Hclean : Resolver.imports_cleanly env).
  { subst env. intros name e H. unfold Resolver.imports in H.
    rewrite !lookup_insert, lookup_singleton in H.
    repeat case_decide; try discriminate H. injection H as <-. reflexivity. }
  destruct (es_modules_versions env ∅ Hclean) as (_ & _ & H).
  rewrite !H. vm_compute. repeat split.
Defined.

Lemma es_modules_versions_idempotent_witness :
  let env : gmap string (result pyexn Resolver.ESModule) :=
    {[ "elastic_transport" := Return (Resolver.MkESModule (Some (VStr "8.4.0")) None) ]} in
  Resolver.get_versions_after env (Resolver.get_versions_after env ∅)
  = Resolver.get_versions_after env ∅.
Proof.
  intros env. apply (es_modules_versions_idempotent env ∅).
  subst env. intros name e H. unfold Resolver.imports in H.
  rewrite lookup_singleton in H.
  case_decide; discriminate H.
Defined.

Lemma es_modules_broken_import_witness :
  let env : gmap string (result pyexn Resolver.ESModule) :=
    {[ "elasticsearch" := Return (Resolver.MkESModule (Some (VStr "1.9.0")) None);
       "elasticsearch1" := Raise (MkExn (OtherException "SyntaxError") 0 [] []);
       "opensearchpy" := Return (Resolver.MkESModule None None) ]} in
  Resolver._es_modules env ∅
  = ([Resolver.MkESModule (Some (VStr "1.9.0")) None],
     {[ "elasticsearch" := VStr "1.9.0" ]},
     Raise (MkExn (OtherException "SyntaxError") 0 [] [])).
Proof.
  intros env.
  rewrite (es_modules_broken_import env ["elasticsearch"]
             ["elasticsearch2"; "elasticsearch5"; "elasticsearch6";
              "elasticsearch7"; "elastic_transport"; "opensearchpy"]
             "elasticsearch1" (MkExn (OtherException "SyntaxError") 0 [] []) ∅).
  - vm_compute. reflexivity.
  - reflexivity.
  - intros n e' Hin. apply list_elem_of_singleton in Hin. subst n env.
    vm_compute. discriminate.
  - vm_compute. reflexivity.
  - reflexivity.
Defined.

(** ** The interceptor: failures before the call *)

Section InterceptorMore.
Import Interceptor Readings.

Variable E : Env.

Lemma bind_all {A B : Type} (P : event -> Prop) (m : M A) (k : A -> M B) :
  Forall P (fst m) -> (forall a, Forall P (fst (k a))) ->
  Forall P (fst (bind m k)).
Proof.
  intros Hm Hk. destruct m as [evs [a | e]]; cbn in *; [ | exact Hm].
  specialize (Hk a). destruct (k a) as [evs' r]. cbn in *.
  apply Forall_app_2; assumption.
Qed.

Local Ltac tagging_leaf :=
  first [ apply Forall_nil_2
        | apply Forall_cons_2; [reflexivity | apply Forall_nil_2] ].

(** Request-tag derivation only sets tags and runs the quantizer, whether it
    completes or raises. *)
Lemma request_tags_tagging (instance : Instance) (args : list pyval)
  (kwargs : gmap string pyval) :
  Forall (fun ev => is_tagging_event ev = true)
         (fst (request_tags E instance args kwargs)).
Proof.
  unfold request_tags.
  apply bind_all; [tagging_leaf | intros [method target]].
  apply bind_all; [tagging_leaf | intros [url query]].
  apply bind_all.
  { rewrite encode_params_spec. tagging_leaf. }
  intros enc.
  repeat (apply bind_all; [tagging_leaf | intros _]).
  apply bind_all.
  { destruct (tag_target_host_spec E (connection_hosts instance)) as [_ Hh].
    eapply Forall_impl; [exact Hh | ]. intros ev [h ->]. reflexivity. }
  intros _. apply bind_all.
  { unfold when. destruct (trace_query_string E); tagging_leaf. }
  intros _. apply bind_all.
  { rewrite body_tag_spec.
    destruct (in_GET_POST method); [ | tagging_leaf].
    destruct (dumps instance (kwargs_get kwargs "body")); tagging_leaf. }
  intros _. apply bind_all; [tagging_leaf | intros _; tagging_leaf].
Qed.

Lemma tagging_events_observed (l : list event) :
  Forall (fun ev => is_tagging_event ev = true) l ->
  calls l = [] /\ span_exits l = [] /\ count is_trace l = 0
  /\ count is_span_exit l = 0 /\ count is_await l = 0.
Proof.
  intros H. repeat split.
  - apply calls_none. eapply Forall_impl; [exact H | ].
    intros ev; destruct ev; cbn; congruence.
  - induction H as [|ev l Hev _ IH]; [reflexivity | ].
    destruct ev; cbn in *; congruence.
  - apply count_none. eapply Forall_impl; [exact H | ].
    intros ev; destruct ev; cbn; congruence.
  - apply count_none. eapply Forall_impl; [exact H | ].
    intros ev; destruct ev; cbn; congruence.
  - apply count_none. eapply Forall_impl; [exact H | ].
    intros ev; destruct ev; cbn; congruence.
Qed.

Lemma span_exits_app (l1 l2 : list event) :
  span_exits (l1 ++ l2) = span_exits l1 ++ span_exits l2.
Proof.
  induction l1 as [|ev l1 IH]; [reflexivity | ].
  destruct ev; cbn; rewrite ?IH; reflexivity.
Qed.

(** The generator of a fully traced call, from its start: the span is
    created and set up, the request tags are derived, and the call is made
    only if their derivation returns. *)
Lemma coro_next_fully_traced (func : callee) (pin : Pin) (instance : Instance)
  (args : list pyval) (kwargs : gmap string pyval) :
  pin_of instance = Some pin -> enabled pin = true -> dropped pin = false ->
  coro_next E func instance args kwargs
  = match request_tags E instance args kwargs with
    | (revs, Return _) =>
        (EvTrace "elasticsearch.query" (ext_service E pin)
                 (SpanTypes_ELASTICSEARCH E)
         :: fst (span_setup E pin) ++ revs ++ events_of_call func args kwargs,
         match func args kwargs with
         | Return v => Yielded v YieldTraced
         | Raise e => Raised (leaves_frame "generator" e)
         end)
    | (revs, Raise e) =>
        (EvTrace "elasticsearch.query" (ext_service E pin)
                 (SpanTypes_ELASTICSEARCH E)
         :: fst (span_setup E pin) ++ revs ++ [EvSpanExit (Some e)],
         Raised (leaves_frame "generator" e))
    end.
Proof.
  intros Hpin Hen Hdrop. unfold coro_next, generator_frame.
  rewrite Hpin, Hen, Hdrop. cbn [negb].
  rewrite traced_call_spec, span_setup_spec.
  unfold with_span_until_yield, bind, events_of_call. cbn [fst snd].
  destruct (request_tags E instance args kwargs) as [revs [[] | e]].
  - destruct (func args kwargs) as [v | e];
      [ | destruct (is_transport_error e)];
      repeat (progress (cbn [app]; rewrite <- ?app_assoc)); reflexivity.
  - repeat (progress (cbn [app]; rewrite <- ?app_assoc)); reflexivity.
Qed.

(** A fully traced call whose request-tag derivation raises, under either
    convention. *)
Lemma wrapped_derivation_raises (c : convention) (func : callee) (pin : Pin)
  (instance : Instance) (args : list pyval) (kwargs : gmap string pyval)
  (e : pyexn) :
  pin_of instance = Some pin -> enabled pin = true -> dropped pin = false ->
  derivation_raises E instance args kwargs e ->
  wrapped c E func instance args kwargs
  = (EvTrace "elasticsearch.query" (ext_service E pin) (SpanTypes_ELASTICSEARCH E)
     :: fst (span_setup E pin)
     ++ fst (request_tags E instance args kwargs) ++ [EvSpanExit (Some e)],
     Raise (leaves_frame "generator" e)).
Proof.
  intros Hpin Hen Hdrop Hraise. unfold derivation_raises in Hraise.
  pose proof (coro_next_fully_traced func pin instance args kwargs Hpin Hen Hdrop)
    as Hnext.
  destruct (request_tags E instance args kwargs) as [revs r]. cbn [snd fst] in *.
  subst r.
  destruct c; cbn [wrapped];
    [rewrite sync_adapter_spec | rewrite async_adapter_spec];
    rewrite Hnext, ?leaves_frame_twice; reflexivity.
Qed.

(** X11.  With tracing enabled and the trace not dropped, a failure of
    request-tag derivation (wrong number of positional arguments, a target
    that does not parse, params that do not encode, a body that does not
    serialize) ends the wrapped call, under either convention: the wrapped
    function is not invoked, the span, created once, is closed once, with
    that failure, and the wrapped call raises it as it leaves the generator
    (the failure itself, unless it is a [StopIteration], which leaves as a
    [RuntimeError]). *)
Theorem derivation_failure_propagates (c : convention) (func : callee)
  (instance : Instance) (args : list pyval) (kwargs : gmap string pyval)
  (e : pyexn) :
  fully_traced instance ->
  derivation_raises E instance args kwargs e ->
  let run := wrapped c E func instance args kwargs in
  snd run = Raise (leaves_frame "generator" e)
  /\ (is_StopIteration e = false -> snd run = Raise e)
  /\ calls (fst run) = []
  /\ count is_trace (fst run) = 1
  /\ span_exits (fst run) = [Some e].
Proof.
  intros (pin & Hpin & Hen & Hdrop) Hraise run. subst run.
  rewrite (wrapped_derivation_raises c func pin instance args kwargs e
             Hpin Hen Hdrop Hraise).
  destruct (tagging_events_observed _ (request_tags_tagging instance args kwargs))
    as (Hc & Hx & Ht & _).
  destruct (request_events_observed _ (span_setup_observed E pin)) as (Hc' & _).
  cbn [fst snd calls span_exits].
  rewrite !calls_app, !span_exits_app, count_cons, !count_app, count_cons,
    count_nil, Hc, Hc', Hx, Ht.
  assert (Hsx : span_exits (fst (span_setup E pin)) = []
                /\ count is_trace (fst (span_setup E pin)) = 0).
  { rewrite span_setup_spec. cbn [fst].
    destruct (negb (Nat.eqb (length (tags pin)) 0)); split; reflexivity. }
  destruct Hsx as [-> ->].
  split; [reflexivity | split; [ | repeat split; reflexivity]].
  intros Hn. rewrite (leaves_frame_other _ _ Hn). reflexivity.
Qed.

Lemma wrong_arity_derivation (instance : Instance) (args : list pyval)
  (kwargs : gmap string pyval) :
  length args <> 2 ->
  exists e,
    exn_cls e = ValueError
    /\ request_tags E instance args kwargs = ([], Raise e).
Proof.
  intros Hlen. unfold request_tags, bind, lift, unpack2.
  destruct args as [|a [|b [|c rest]]];
    try (eexists; split; [ | reflexivity]; reflexivity).
  contradiction Hlen. reflexivity.
Qed.

(** X12.  With tracing enabled and the trace not dropped, a call that does
    not pass exactly two positional arguments raises a [ValueError], under
    either convention, before any request tag is set and without the
    wrapped function being invoked; the span is created, set up and closed
    with that error. *)
Theorem wrong_arity_fails (c : convention) (func : callee) (pin : Pin)
  (instance : Instance) (args : list pyval) (kwargs : gmap string pyval) :
  pin_of instance = Some pin -> enabled pin = true -> dropped pin = false ->
  length args <> 2 ->
  exists e,
    exn_cls e = ValueError
    /\ wrapped c E func instance args kwargs
       = (EvTrace "elasticsearch.query" (ext_service E pin)
                  (SpanTypes_ELASTICSEARCH E)
          :: fst (span_setup E pin) ++ [EvSpanExit (Some e)],
          Raise e).
Proof.
  intros Hpin Hen Hdrop Hlen.
  destruct (wrong_arity_derivation instance args kwargs Hlen) as (e & Hcls & Hreq).
  exists e. split; [exact Hcls | ].
  rewrite (wrapped_derivation_raises c func pin instance args kwargs e
             Hpin Hen Hdrop).
  - rewrite Hreq, leaves_frame_other; [reflexivity | ].
    unfold is_StopIteration. rewrite Hcls. reflexivity.
  - unfold derivation_raises. rewrite Hreq. reflexivity.
Qed.


(** ** The interceptor: what is recorded from the outcome *)

Lemma request_events_no_exit (l : list event) :
  Forall (fun ev => is_request_event ev = true) l ->
  span_exits l = [] /\ metrics l = [] /\ count is_log l = 0
  /\ count is_await l = 0.
Proof.
  intros H. repeat split.
  - induction H as [|ev l Hev _ IH]; [reflexivity | ].
    destruct ev; cbn in *; congruence.
  - induction H as [|ev l Hev _ IH]; [reflexivity | ].
    destruct ev; cbn in *; congruence.
  - apply count_none. eapply Forall_impl; [exact H | ].
    intros ev; destruct ev; cbn; congruence.
  - apply count_none. eapply Forall_impl; [exact H | ].
    intros ev; destruct ev; cbn; congruence.
Qed.

Lemma metrics_app (l1 l2 : list event) :
  metrics (l1 ++ l2) = metrics l1 ++ metrics l2.
Proof.
  induction l1 as [|ev l1 IH]; [reflexivity | ].
  destruct ev; cbn; rewrite ?IH; reflexivity.
Qed.

(** The events of response-tag derivation: what the extraction records,
    then the status tag. *)
Lemma response_tags_events (result : pyval) :
  response_tags E result
  = (took_events E (snd (status_and_data result))
       ++ status_events (fst (status_and_data result)),
     Return tt).
Proof.
  unfold response_tags, took_events, status_events, try_except, bind, lift,
    when, emit, ret.
  destruct (status_and_data result) as [status [data | e]] eqn:Hsd; cbn [fst snd].
  - destruct (data_get_took data) as [took | e] eqn:Hget.
    + destruct (truthy took).
      * destruct (py_int E took) as [n | e] eqn:Hint.
        -- destruct (truthy status); reflexivity.
        -- rewrite (py_int_raises E _ _ Hint). destruct (truthy status); reflexivity.
      * destruct (truthy status); reflexivity.
    + rewrite (data_get_took_raises _ _ Hget). destruct (truthy status); reflexivity.
  - rewrite (status_and_data_raises _ _ _ Hsd). destruct (truthy status); reflexivity.
Qed.

(** A fully traced call whose request-tag derivation completes and whose
    call returns, under the synchronous convention. *)
Lemma sync_traced_returning (func : callee) (pin : Pin) (instance : Instance)
  (args : list pyval) (kwargs : gmap string pyval) (result : pyval) :
  pin_of instance = Some pin -> enabled pin = true -> dropped pin = false ->
  derivable E instance args kwargs ->
  func args kwargs = Return result ->
  exists pre,
    Forall (fun ev => is_request_event ev = true) pre
    /\ _perform_request E func instance args kwargs
       = (pre ++ EvQuantize :: EvCall args kwargs
              :: took_events E (snd (status_and_data result))
              ++ status_events (fst (status_and_data result))
              ++ [EvSpanExit None],
          Return result).
Proof.
  intros Hpin Hen Hdrop Hder Hfunc.
  destruct (derivable_pieces E instance args kwargs Hder)
    as (method & target & url & query & enc & bevs
        & -> & Hurl & Henc & Hbody & Hbevs).
  exists (events_before_quantize E pin instance method url enc bevs).
  split; [apply events_before_quantize_request, Hbevs | ].
  pose proof (wrapped_traced_events E Sync func pin instance method target kwargs
                url query enc bevs Hpin Hen Hdrop Hurl Henc Hbody) as Hrun.
  cbn [wrapped] in Hrun. rewrite Hrun.
  unfold events_before_call, events_after_traced_call, relayed.
  rewrite Hfunc. cbn [events_after_yield]. rewrite response_tags_events.
  cbn [fst]. rewrite <- !app_assoc. reflexivity.
Qed.

(** X14.  A plain response body (a mapping): the call returns it unchanged;
    no status code is tagged; the took metric is recorded exactly when the
    body has a truthy [took] that [int()] accepts, a [took] that it rejects
    gives one debug log, and a missing, [None] or zero [took] gives
    nothing. *)
Theorem took_metric_of_body (func : callee) (instance : Instance)
  (args : list pyval) (kwargs : gmap string pyval)
  (items : list (string * pyval)) :
  fully_traced instance ->
  derivable E instance args kwargs ->
  func args kwargs = Return (VDict items) ->
  let run := _perform_request E func instance args kwargs in
  let took := default VNone (assoc "took" items) in
  snd run = Return (VDict items)
  /\ tag_values STATUS_CODE (fst run) = []
  /\ metrics (fst run)
     = (if truthy took
        then match py_int E took with Return n => [(TOOK, n)] | Raise _ => [] end
        else [])
  /\ count is_log (fst run)
     = (if truthy took
        then match py_int E took with Return _ => 0 | Raise _ => 1 end
        else 0).
Proof.
  intros (pin & Hpin & Hen & Hdrop) Hder Hfunc run took. subst run took.
  destruct (sync_traced_returning func pin instance args kwargs (VDict items)
              Hpin Hen Hdrop Hder Hfunc) as (pre & Hpre & ->).
  destruct (request_events_observed _ Hpre) as (_ & _ & _ & _ & _ & _ & Hcode).
  destruct (request_events_no_exit _ Hpre) as (_ & Hm & Hl & _).
  cbn [fst snd status_and_data isinstance_tuple took_events data_get_took
       status_events truthy app].
  rewrite tag_values_app, metrics_app, count_app, Hcode, Hm, Hl.
  split; [reflexivity | ].
  destruct (truthy (default VNone (assoc "took" items)));
    [destruct (py_int E (default VNone (assoc "took" items))) | ];
    repeat split; reflexivity.
Qed.

(** X15.  A paired response: for a [(status, body)] tuple the status is
    tagged as the status code when it is truthy, whatever the body is (also
    when nothing can be extracted from it); for a named tuple whose [meta]
    has a [status], that status is tagged likewise.  The call returns the
    response unchanged. *)
Theorem status_of_paired_response (func : callee) (instance : Instance)
  (args : list pyval) (kwargs : gmap string pyval) (result status : pyval) :
  fully_traced instance ->
  derivable E instance args kwargs ->
  func args kwargs = Return result ->
  (exists data, result = VTuple [status; data])
  \/ (exists meta data,
        result = VNamedTuple [("meta", meta); ("body", data)]
        /\ getattr meta "status" = Some status) ->
  let run := _perform_request E func instance args kwargs in
  snd run = Return result
  /\ tag_values STATUS_CODE (fst run)
     = (if truthy status then [status] else []).
Proof.
  intros (pin & Hpin & Hen & Hdrop) Hder Hfunc Hshape run. subst run.
  destruct (sync_traced_returning func pin instance args kwargs result
              Hpin Hen Hdrop Hder Hfunc) as (pre & Hpre & ->).
  destruct (request_events_observed _ Hpre) as (_ & _ & _ & _ & _ & _ & Hcode).
  split; [reflexivity | ]. cbn [fst].
  assert (Hstatus : fst (status_and_data result) = status).
  { destruct Hshape as [(data & ->) | (meta & data & -> & Hmeta)].
    - reflexivity.
    - unfold status_and_data. cbn [isinstance_tuple getattr assoc String.eqb].
      cbn. rewrite Hmeta. reflexivity. }
  rewrite Hstatus, tag_values_app, Hcode. cbn [tag_values app].
  assert (Htook : forall d, tag_values STATUS_CODE (took_events E d) = []).
  { intros d. unfold took_events.
    destruct d as [d | e]; [ | reflexivity].
    destruct (data_get_took d) as [took | e]; [ | reflexivity].
    destruct (truthy took); [ | reflexivity].
    destruct (py_int E took); reflexivity. }
  rewrite tag_values_app, Htook, tag_values_app. unfold status_events.
  destruct (truthy status); reflexivity.
Qed.

(** X16.  Resuming the generator with the result never raises and never
    invokes the wrapped function, whatever the result is: the generator
    finishes, having closed the span (if there is one) with no failure in
    flight, and having recorded at most one metric, one debug log and one
    status code. *)
Theorem resume_is_soft (site : yield_site) (result : pyval) :
  let run := coro_send E site result in
  snd run = Finished
  /\ calls (fst run) = []
  /\ span_exits (fst run)
     = match site with YieldDisabled => [] | _ => [None] end
  /\ length (metrics (fst run)) + count is_log (fst run) <= 1
  /\ length (tag_values STATUS_CODE (fst run)) <= 1.
Proof.
  intros run. subst run. rewrite coro_send_spec. cbn [fst snd].
  split; [reflexivity | ].
  destruct site; cbn [events_after_yield];
    try (cbn [app calls span_exits metrics tag_values tag_key_eqb length];
         rewrite ?count_cons, ?count_nil; cbn [is_log];
         repeat split; first [reflexivity | lia]).
  rewrite response_tags_events. cbn [fst].
  unfold took_events, status_events.
  destruct (snd (status_and_data result)) as [data | e];
    [destruct (data_get_took data) as [took | e];
     [destruct (truthy took); [destruct (py_int E took) | ] | ] | ];
    destruct (truthy (fst (status_and_data result)));
    cbn [app calls span_exits metrics tag_values tag_key_eqb length];
    rewrite ?count_cons, ?count_nil; cbn [is_log];
    repeat split; first [reflexivity | lia].
Qed.

(** ** The interceptor: failures of the call, and the span *)

(** X17.  A failure raised by the call inside the routine (under the
    synchronous convention, every failure of the call), after exactly one
    invocation: the span is closed with it, and it is raised to the caller
    as it leaves the generator, that is unchanged unless it is a
    [StopIteration], which reaches the caller as a [RuntimeError]; when it
    is a transport error the status code it carries, or 500 if it carries
    none, is tagged and the error flag is set once; for any other failure
    the routine tags no status code and does not set the flag. *)
Theorem failure_in_routine (c : convention) (func : callee)
  (instance : Instance) (args : list pyval) (kwargs : gmap string pyval)
  (e : pyexn) :
  fully_traced instance ->
  derivable E instance args kwargs ->
  func args kwargs = Raise e ->
  let run := wrapped c E func instance args kwargs in
  snd run = Raise (leaves_frame "generator" e)
  /\ (is_StopIteration e = false -> snd run = Raise e)
  /\ calls (fst run) = [(args, kwargs)]
  /\ span_exits (fst run) = [Some e]
  /\ tag_values STATUS_CODE (fst run)
     = (if is_transport_error e
        then [default (VInt 500) (assoc "status_code" (exn_attrs e))]
        else [])
  /\ count is_set_error (fst run) = (if is_transport_error e then 1 else 0).
Proof.
  intros (pin & Hpin & Hen & Hdrop) Hder Hfunc run. subst run.
  destruct (derivable_pieces E instance args kwargs Hder)
    as (method & target & url & query & enc & bevs
        & -> & Hurl & Henc & Hbody & Hbevs).
  rewrite (wrapped_traced_events E c func pin instance method target kwargs url
             query enc bevs Hpin Hen Hdrop Hurl Henc Hbody).
  pose proof (events_before_quantize_request E pin instance method url enc bevs
                Hbevs) as Hpre.
  destruct (request_events_observed _ Hpre) as (Hc & _ & _ & _ & _ & Herr & Hcode).
  destruct (request_events_no_exit _ Hpre) as (Hx & _).
  cbn [fst snd]. unfold events_before_call, events_after_traced_call, relayed.
  rewrite Hfunc, !calls_app, !span_exits_app, !tag_values_app, !count_app,
    !count_cons, Hc, Hx, Herr, Hcode.
  split; [reflexivity | split].
  { intros Hn. rewrite (leaves_frame_other _ _ Hn). reflexivity. }
  unfold status_code_of.
  destruct (is_transport_error e); cbn; rewrite ?count_cons, ?count_nil;
    repeat split; reflexivity.
Qed.

(** X18.  Under the synchronous convention, on every call whatsoever
    (whatever the arguments, the collaborators and the outcome), a span is
    created exactly when tracing is enabled for the instance, and it is
    closed exactly once by the time the wrapped call returns or raises. *)
Theorem sync_span_closed_once (func : callee) (instance : Instance)
  (args : list pyval) (kwargs : gmap string pyval) :
  let evs := fst (_perform_request E func instance args kwargs) in
  count is_trace evs
  = match pin_of instance with
    | Some pin => if enabled pin then 1 else 0
    | None => 0
    end
  /\ count is_span_exit evs = count is_trace evs.
Proof.
  intros evs. subst evs.
  destruct (span_closed_once E Sync func instance args kwargs) as [H1 H2].
  split; [exact H1 | apply H2]. exact I.
Qed.

(** ** The interceptor: host and query-string tags *)

Lemma tag_target_host_first (hosts : list string) :
  tag_str_values TARGET_HOST (fst (tag_target_host E hosts))
  = match first_hostname E hosts with
    | Some hostname => [VStr hostname]
    | None => []
    end.
Proof.
  unfold first_hostname.
  induction hosts as [|host rest IH]; [reflexivity | ].
  cbn [tag_target_host fmap list_fmap]. rewrite filter_cons.
  destruct (String.eqb_spec (netloc_of E host) "") as [Heq | Hne]; cbn [negb].
  - rewrite decide_False by (intros H; apply H; exact Heq). exact IH.
  - rewrite decide_True by exact Hne. reflexivity.
Qed.

(** X19.  In a fully traced call whose request-tag derivation completes,
    under either convention, the target-host tag is set at most once: to
    the name of the first connection, in the order of the pool, whose host
    has one; it is not set when no connection has a host name. *)
Theorem target_host_is_first_named (c : convention) (func : callee)
  (instance : Instance) (args : list pyval) (kwargs : gmap string pyval) :
  fully_traced instance ->
  derivable E instance args kwargs ->
  tag_str_values TARGET_HOST (fst (wrapped c E func instance args kwargs))
  = match first_hostname E (connection_hosts instance) with
    | Some hostname => [VStr hostname]
    | None => []
    end.
Proof.
  intros (pin & Hpin & Hen & Hdrop) Hder.
  destruct (derivable_pieces E instance args kwargs Hder)
    as (method & target & url & query & enc & bevs
        & -> & Hurl & Henc & Hbody & Hbevs).
  rewrite (tag_str_values_traced E c func pin instance method target kwargs url
             query enc bevs TARGET_HOST Hpin Hen Hdrop Hurl Henc Hbody).
  unfold events_before_quantize. rewrite span_setup_spec. cbn [fst].
  cbn [tag_str_values]. rewrite !tag_str_values_app. cbn [tag_str_values tag_key_eqb].
  rewrite !tag_str_values_app, tag_target_host_first.
  assert (Hb : tag_str_values TARGET_HOST bevs = []).
  { apply tag_str_values_none. eapply Forall_impl; [exact Hbevs | ].
    intros ev [v ->]. reflexivity. }
  rewrite Hb.
  destruct (negb (Nat.eqb (length (tags pin)) 0)), (trace_query_string E);
    cbn; rewrite ?app_nil_r; reflexivity.
Qed.

(** X20.  In a fully traced call whose request-tag derivation completes,
    under either convention, the query-string tag is set exactly when
    query-string tracing is configured, and then to the very value of the
    params tag. *)
Theorem query_string_tag (c : convention) (func : callee)
  (instance : Instance) (args : list pyval) (kwargs : gmap string pyval) :
  fully_traced instance ->
  derivable E instance args kwargs ->
  tag_str_values QUERY_STRING (fst (wrapped c E func instance args kwargs))
  = if trace_query_string E
    then tag_str_values PARAMS (fst (wrapped c E func instance args kwargs))
    else [].
Proof.
  intros (pin & Hpin & Hen & Hdrop) Hder.
  destruct (derivable_pieces E instance args kwargs Hder)
    as (method & target & url & query & enc & bevs
        & -> & Hurl & Henc & Hbody & Hbevs).
  rewrite !(tag_str_values_traced E c func pin instance method target kwargs url
              query enc bevs _ Hpin Hen Hdrop Hurl Henc Hbody).
  destruct (tag_str_values_before_quantize E pin instance method url enc bevs Hbevs)
    as (_ & -> & _).
  unfold events_before_quantize. rewrite span_setup_spec. cbn [fst].
  destruct (tag_target_host_spec E (connection_hosts instance)) as [_ Hh].
  assert (Hhosts : tag_str_values QUERY_STRING
                     (fst (tag_target_host E (connection_hosts instance))) = []).
  { apply tag_str_values_none. eapply Forall_impl; [exact Hh | ].
    intros ev [h ->]. reflexivity. }
  assert (Hb : tag_str_values QUERY_STRING bevs = []).
  { apply tag_str_values_none. eapply Forall_impl; [exact Hbevs | ].
    intros ev [v ->]. reflexivity. }
  cbn [tag_str_values]. rewrite !tag_str_values_app. cbn [tag_str_values tag_key_eqb].
  rewrite !tag_str_values_app, Hhosts, Hb.
  destruct (negb (Nat.eqb (length (tags pin)) 0)), (trace_query_string E);
    cbn; reflexivity.
Qed.

(** ** The interceptor: every call, and the two adapters *)

(** A fully traced call, under either convention, whatever its arguments. *)
Lemma wrapped_fully_traced (c : convention) (func : callee) (pin : Pin)
  (instance : Instance) (args : list pyval) (kwargs : gmap string pyval) :
  pin_of instance = Some pin -> enabled pin = true -> dropped pin = false ->
  wrapped c E func instance args kwargs
  = match request_tags E instance args kwargs with
    | (revs, Return _) =>
        (EvTrace "elasticsearch.query" (ext_service E pin)
                 (SpanTypes_ELASTICSEARCH E)
         :: fst (span_setup E pin) ++ revs
         ++ EvCall args kwargs :: events_after_traced_call E c func args kwargs,
         relayed c func args kwargs)
    | (revs, Raise e) =>
        (EvTrace "elasticsearch.query" (ext_service E pin)
                 (SpanTypes_ELASTICSEARCH E)
         :: fst (span_setup E pin) ++ revs ++ [EvSpanExit (Some e)],
         Raise (leaves_frame "generator" e))
    end.
Proof.
  intros Hpin Hen Hdrop.
  pose proof (coro_next_fully_traced func pin instance args kwargs Hpin Hen Hdrop)
    as Hnext.
  unfold events_of_call in Hnext.
  destruct (request_tags E instance args kwargs) as [revs [[] | e]];
    destruct c; cbn [wrapped];
    [rewrite sync_adapter_spec | rewrite async_adapter_spec
     | rewrite sync_adapter_spec | rewrite async_adapter_spec];
    rewrite Hnext, ?leaves_frame_twice; try reflexivity;
    unfold relayed, events_after_traced_call;
    destruct (func args kwargs) as [v | e];
    try destruct (snd (await v)) as [result | e];
    try destruct (is_transport_error e);
    cbn [app]; rewrite <- ?app_assoc; cbn [app];
    rewrite <- ?app_assoc, ?leaves_frame_twice;
    reflexivity.
Qed.

(** X21.  On every call whatsoever, under either convention, the wrapped
    function is invoked at most once, and only with the positional and
    keyword arguments of the call: either it is invoked exactly once and
    the wrapped call hands on its outcome, which is that of the plain call
    unless the plain call raises [StopIteration] (that one reaches the
    caller as a [RuntimeError]); or it is not invoked at all, which happens
    only when tracing is enabled, the trace is not dropped and request-tag
    derivation raises, the wrapped call then raising that failure as it
    leaves the generator. *)
Theorem invoked_at_most_once (c : convention) (func : callee)
  (instance : Instance) (args : list pyval) (kwargs : gmap string pyval) :
  let run := wrapped c E func instance args kwargs in
  (calls (fst run) = [(args, kwargs)]
   /\ snd run = relayed c func args kwargs
   /\ (no_StopIteration (plain c func args kwargs) ->
       snd run = plain c func args kwargs))
  \/ (calls (fst run) = []
      /\ fully_traced instance
      /\ exists e, derivation_raises E instance args kwargs e
                   /\ snd run = Raise (leaves_frame "generator" e)).
Proof.
  intros run. subst run.
  assert (Hplain : forall o,
            o = relayed c func args kwargs ->
            no_StopIteration (plain c func args kwargs) ->
            o = plain c func args kwargs).
  { intros o -> Hn. apply relayed_plain, Hn. }
  destruct (pin_of instance) as [pin | ] eqn:Hpin.
  2:{ left. rewrite (wrapped_disabled E c func instance args kwargs (or_introl Hpin)).
      split; [ | split; [reflexivity | apply Hplain; reflexivity]].
      destruct c; [ | destruct (func args kwargs)]; reflexivity. }
  destruct (enabled pin) eqn:Hen.
  2:{ left. rewrite (wrapped_disabled E c func instance args kwargs
                       (or_intror (ex_intro _ pin (conj Hpin Hen)))).
      split; [ | split; [reflexivity | apply Hplain; reflexivity]].
      destruct c; [ | destruct (func args kwargs)]; reflexivity. }
  destruct (dropped pin) eqn:Hdrop.
  { left. destruct (dropped_transparent E c func pin instance args kwargs
                      Hpin Hen Hdrop) as [H1 H2].
    split; [exact H2 | split; [exact H1 | apply Hplain, H1]]. }
  rewrite (wrapped_fully_traced c func pin instance args kwargs Hpin Hen Hdrop).
  destruct (tagging_events_observed _ (request_tags_tagging instance args kwargs))
    as (Hc & _).
  destruct (request_events_observed _ (span_setup_observed E pin)) as (Hc' & _).
  destruct (request_tags E instance args kwargs) as [revs [[] | e]] eqn:Hreq;
    cbn [fst snd] in *.
  - left. split; [ | split; [reflexivity | apply Hplain; reflexivity]].
    cbn [calls].
    rewrite !calls_app, Hc, Hc'. cbn [calls app].
    destruct (after_call_events_observed _
                (events_after_traced_call_after E c func args kwargs)) as [-> _].
    reflexivity.
  - right. split; [ | split].
    + cbn [calls]. rewrite !calls_app, Hc, Hc'. reflexivity.
    + exists pin. auto.
    + exists e. split; [ | reflexivity].
      unfold derivation_raises. rewrite Hreq. reflexivity.
Qed.

(** ** The sampling short-circuit *)

Lemma bind_lift_Return {A B : Type} (a : A) (k : A -> M B) :
  bind ([], Return a) k = k a.
Proof. unfold bind. destruct (k a). reflexivity. Qed.

Lemma bind_emit_first {B : Type} (ev : event) (k : unit -> M B) :
  exists rest, fst (bind (emit ev) k) = ev :: rest.
Proof. unfold bind, emit. destruct (k tt) as [evs r]. eexists. reflexivity. Qed.

(** Request-tag derivation that returns has set the method tag first. *)
Lemma request_tags_returns (instance : Instance) (args : list pyval)
  (kwargs : gmap string pyval) (revs : list event) :
  request_tags E instance args kwargs = (revs, Return tt) ->
  exists method rest, revs = EvSetTagStr METHOD method :: rest.
Proof.
  unfold request_tags, lift.
  destruct (unpack2 args) as [[method target] | e]; [ | discriminate].
  rewrite bind_lift_Return.
  destruct (urlparse E target) as [[url query] | e]; [ | discriminate].
  rewrite bind_lift_Return, encode_params_spec.
  destruct (if truthy (kwargs_get kwargs "params")
            then urlencode E (kwargs_get kwargs "params")
            else Return query) as [enc | e]; [ | discriminate].
  rewrite bind_lift_Return.
  match goal with
  | |- bind (emit ?ev) ?k = _ -> _ =>
      destruct (bind_emit_first ev k) as [rest Hrest]
  end.
  intros H. rewrite H in Hrest. cbn [fst] in Hrest. eauto.
Qed.

(** C5, as amended.  With tracing enabled, under either convention and
    whatever the arguments of the call: request- and response-tag derivation
    is skipped (the routine goes on to the call and derives nothing) if and
    only if a sampling priority has been assigned to the span's context and
    it is zero or negative; when it is skipped the span is still created,
    the wrapped function is still invoked exactly once, with the arguments
    of the call, its outcome is the outcome of the wrapped call unless it
    raises [StopIteration], and the span is closed exactly once wherever
    the outcome is produced where the routine sees it (always under the
    synchronous convention). *)
Theorem sampling_short_circuit (c : convention) (func : callee) (pin : Pin)
  (instance : Instance) (args : list pyval) (kwargs : gmap string pyval) :
  pin_of instance = Some pin -> enabled pin = true ->
  let run := wrapped c E func instance args kwargs in
  (derivation_skipped (fst run) <-> explicitly_non_positive pin)
  /\ (explicitly_non_positive pin ->
      derivation_skipped (fst run)
      /\ count is_trace (fst run) = 1
      /\ calls (fst run) = [(args, kwargs)]
      /\ (no_StopIteration (plain c func args kwargs) ->
          snd run = plain c func args kwargs)
      /\ (outcome_seen_by_routine c func args kwargs ->
          count is_span_exit (fst run) = 1)).
Proof.
  intros Hpin Hen run. subst run.
  assert (Hskip : dropped pin = true ->
            derivation_skipped (fst (wrapped c E func instance args kwargs))
            /\ count is_trace (fst (wrapped c E func instance args kwargs)) = 1
            /\ (outcome_seen_by_routine c func args kwargs ->
                count is_span_exit (fst (wrapped c E func instance args kwargs)) = 1)).
  { intros Hdrop.
    rewrite (wrapped_dropped E c func pin instance args kwargs Hpin Hen Hdrop).
    cbn [fst]. rewrite span_setup_spec. cbn [fst].
    unfold derivation_skipped, events_after_dropped_call, outcome_seen_by_routine.
    destruct (negb (Nat.eqb (length (tags pin)) 0)),
             (func args kwargs) as [v | e], c;
      try destruct (snd (await v)) as [r | e'];
      rewrite !count_cons, ?count_app, ?count_cons, ?count_nil; cbn;
      repeat split; try reflexivity; try (intros [r' [=]]). }
  split.
  - rewrite <- dropped_iff. split.
    + intros [Hcall Hnone].
      destruct (dropped pin) eqn:Hdrop; [reflexivity | exfalso].
      rewrite (wrapped_fully_traced c func pin instance args kwargs
                 Hpin Hen Hdrop) in Hcall, Hnone.
      pose proof (request_tags_tagging instance args kwargs) as Htag.
      destruct (request_tags E instance args kwargs) as [revs [[] | e]] eqn:Hreq;
        cbn [fst] in *.
      * destruct (request_tags_returns instance args kwargs revs Hreq)
          as (method & rest & ->).
        revert Hnone.
        apply (count_one_more is_derivation
                 (EvTrace "elasticsearch.query" (ext_service E pin)
                          (SpanTypes_ELASTICSEARCH E) :: fst (span_setup E pin))
                 (rest ++ EvCall args kwargs
                       :: events_after_traced_call E c func args kwargs)
                 (EvSetTagStr METHOD method)).
        reflexivity.
      * destruct (request_events_observed _ (span_setup_observed E pin))
          as (_ & Hsetup & _).
        rewrite count_cons, !count_app, count_cons, count_nil, Hsetup in Hcall.
        rewrite (count_none is_call revs) in Hcall; [discriminate Hcall | ].
        eapply Forall_impl; [exact Htag | ].
        intros ev; destruct ev; cbn; congruence.
    + intros Hdrop. apply Hskip, Hdrop.
  - intros Hnp. apply dropped_iff in Hnp.
    destruct (Hskip Hnp) as (H1 & H2 & H3).
    destruct (dropped_transparent E c func pin instance args kwargs Hpin Hen Hnp)
      as [H4 H5].
    split; [exact H1 | split; [exact H2 | split; [exact H5 | split; [ | exact H3]]]].
    intros Hn. rewrite H4. apply relayed_plain, Hn.
Qed.

Lemma filter_no_await (l : list event) :
  Forall (fun ev => is_await ev = false) l ->
  filter (fun ev => is_await ev = false) l = l.
Proof.
  induction 1 as [|ev l Hev _ IH]; [reflexivity | ].
  rewrite filter_cons, decide_True by exact Hev. rewrite IH. reflexivity.
Qed.

Lemma events_after_yield_no_await (site : yield_site) (result : pyval) :
  Forall (fun ev => is_await ev = false) (events_after_yield E site result).
Proof.
  destruct site; cbn [events_after_yield].
  - apply Forall_nil_2.
  - apply Forall_cons_2; [reflexivity | apply Forall_nil_2].
  - destruct (response_tags_spec E result) as [_ Hr].
    apply Forall_app_2.
    + eapply Forall_impl; [exact Hr | ].
      intros ev [[n ->] | [[msg ->] | [status ->]]]; reflexivity.
    + apply Forall_cons_2; [reflexivity | apply Forall_nil_2].
Qed.

Lemma request_events_no_await (l : list event) :
  Forall (fun ev => is_request_event ev = true) l ->
  Forall (fun ev => is_await ev = false) l.
Proof.
  intros H. eapply Forall_impl; [exact H | ].
  intros ev; destruct ev; cbn; congruence.
Qed.

Lemma tagging_events_no_await (l : list event) :
  Forall (fun ev => is_tagging_event ev = true) l ->
  Forall (fun ev => is_await ev = false) l.
Proof.
  intros H. eapply Forall_impl; [exact H | ].
  intros ev; destruct ev; cbn; congruence.
Qed.

(** X22.  The two adapters record the same span when the call succeeds: for
    a transport method that returns on the arguments of the call, the
    asynchronous adapter around its asynchronous counterpart gives the
    outcome of the synchronous adapter around the method itself, and its
    events are those of the synchronous adapter with the [await] added. *)
Theorem adapters_agree_on_success (func : callee) (instance : Instance)
  (args : list pyval) (kwargs : gmap string pyval) (v : pyval) :
  func args kwargs = Return v ->
  let sync := _perform_request E func instance args kwargs in
  let async := _perform_request_async E (asyncify func) instance args kwargs in
  snd async = snd sync
  /\ filter (fun ev => is_await ev = false) (fst async) = fst sync.
Proof.
  intros Hfunc sync async. subst sync async.
  assert (Hafunc : asyncify func args kwargs = Return (VAwaitable (Return v))).
  { unfold asyncify. rewrite Hfunc. reflexivity. }
  change (snd (wrapped Async E (asyncify func) instance args kwargs)
          = snd (wrapped Sync E func instance args kwargs)
          /\ filter (fun ev => is_await ev = false)
               (fst (wrapped Async E (asyncify func) instance args kwargs))
             = fst (wrapped Sync E func instance args kwargs)).
  destruct (pin_of instance) as [pin | ] eqn:Hpin.
  2:{ rewrite !(wrapped_disabled E _ _ instance args kwargs (or_introl Hpin)).
      unfold relayed.
      rewrite Hafunc, Hfunc. split; reflexivity. }
  destruct (enabled pin) eqn:Hen.
  2:{ rewrite !(wrapped_disabled E _ _ instance args kwargs
                  (or_intror (ex_intro _ pin (conj Hpin Hen)))).
      unfold relayed.
      rewrite Hafunc, Hfunc. split; reflexivity. }
  pose proof (request_events_no_await _ (span_setup_observed E pin)) as Hsetup.
  destruct (dropped pin) eqn:Hdrop.
  { rewrite !(wrapped_dropped E _ _ pin instance args kwargs Hpin Hen Hdrop).
    cbn [fst snd].
    unfold relayed, events_after_dropped_call.
    rewrite Hafunc, Hfunc. split; [reflexivity | ].
    rewrite filter_cons, decide_True by reflexivity.
    rewrite filter_app, (filter_no_await _ Hsetup). reflexivity. }
  rewrite !(wrapped_fully_traced _ _ pin instance args kwargs Hpin Hen Hdrop).
  pose proof (tagging_events_no_await _
                (request_tags_tagging instance args kwargs)) as Hreq.
  destruct (request_tags E instance args kwargs) as [revs [[] | e]];
    cbn [fst snd] in *.
  - unfold relayed, events_after_traced_call.
    rewrite Hafunc, Hfunc. split; [reflexivity | ].
    rewrite filter_cons, decide_True by reflexivity.
    rewrite !filter_app, (filter_no_await _ Hsetup), (filter_no_await _ Hreq).
    rewrite filter_cons, decide_True by reflexivity.
    rewrite filter_cons, decide_False by (cbn; congruence).
    cbn [await bind emit lift snd].
    rewrite (filter_no_await _ (events_after_yield_no_await YieldTraced v)).
    reflexivity.
  - split; [reflexivity | ].
    rewrite filter_cons, decide_True by reflexivity.
    rewrite !filter_app, (filter_no_await _ Hsetup), (filter_no_await _ Hreq).
    reflexivity.
Qed.

End InterceptorMore.

(** ** The further properties on concrete calls *)

Lemma derivation_failure_propagates_witness :
  let bad_target := MkExn ValueError 0 [VStr "Invalid IPv6 URL"] [] in
  let E := MkEnv 16 "elasticsearch" "client" "elasticsearch" false VNone
             (fun _ => "elasticsearch") (fun _ => Raise bad_target)
             simple_urlencode (fun host => host) (fun _ => None) in
  let run := _perform_request E (returning search_hits)
               (instance (Some (traced_pin None))) search_args search_kwargs in
  snd run = Raise bad_target
  /\ calls (fst run) = []
  /\ count is_trace (fst run) = 1
  /\ Readings.span_exits (fst run) = [Some bad_target].
Proof.
  intros bad_target E.
  destruct (derivation_failure_propagates E Sync (returning search_hits)
              (instance (Some (traced_pin None))) search_args search_kwargs
              bad_target) as (_ & H & Hrest).
  - exists (traced_pin None). repeat split.
  - reflexivity.
  - exact (conj (H eq_refl) Hrest).
Defined.

Lemma wrong_arity_fails_witness :
  exists e,
    exn_cls e = ValueError
    /\ _perform_request_async (env 16) (async_returning search_hits)
         (instance (Some (traced_pin None))) [VStr "GET"] search_kwargs
       = ([EvTrace "elasticsearch.query" "elasticsearch" "elasticsearch";
           EvSetTagStr COMPONENT (VStr "elasticsearch");
           EvSetTagStr SPAN_KIND (VStr "client");
           EvSetTag SPAN_MEASURED_KEY VNone;
           EvSpanExit (Some e)],
          Raise e).
Proof.
  destruct (wrong_arity_fails (env 16) Async (async_returning search_hits)
              (traced_pin None) (instance (Some (traced_pin None)))
              [VStr "GET"] search_kwargs eq_refl eq_refl eq_refl)
    as (e & Hcls & Hrun).
  - cbn. lia.
  - exists e. split; [exact Hcls | exact Hrun].
Defined.


Lemma search_derivable :
  derivable (env 16) (instance (Some (traced_pin None)))
            search_args search_kwargs.
Proof.
  exists (VStr "GET"), (VStr "/my-index/_search"), "/my-index/_search", "".
  split; [reflexivity | split; [reflexivity | split]].
  - intros _. exists "q=foo". reflexivity.
  - intros _. exists "null". reflexivity.
Qed.

Lemma search_fully_traced : fully_traced (instance (Some (traced_pin None))).
Proof. exists (traced_pin None). repeat split. Qed.

Lemma took_metric_of_body_witness :
  let run := _perform_request (env 16) (returning search_hits)
               (instance (Some (traced_pin None))) search_args search_kwargs in
  snd run = Return search_hits
  /\ tag_values STATUS_CODE (fst run) = []
  /\ Readings.metrics (fst run) = [(TOOK, 3%Z)]
  /\ count Readings.is_log (fst run) = 0.
Proof.
  intros run.
  exact (took_metric_of_body (env 16) (returning search_hits)
           (instance (Some (traced_pin None))) search_args search_kwargs
           [("took", VInt 3); ("hits", VDict [])]
           search_fully_traced search_derivable eq_refl).
Defined.

Lemma status_of_paired_response_witness :
  let legacy := VTuple [VInt 200; VStr "not a mapping"] in
  let modern := VNamedTuple [("meta", VObject "ApiResponseMeta" [("status", VInt 201)]);
                             ("body", search_hits)] in
  tag_values STATUS_CODE
    (fst (_perform_request (env 16) (returning legacy)
            (instance (Some (traced_pin None))) search_args search_kwargs))
  = [VInt 200]
  /\ tag_values STATUS_CODE
       (fst (_perform_request (env 16) (returning modern)
               (instance (Some (traced_pin None))) search_args search_kwargs))
     = [VInt 201].
Proof.
  intros legacy modern. split.
  - refine (proj2 (status_of_paired_response (env 16) (returning legacy)
                     (instance (Some (traced_pin None))) search_args
                     search_kwargs legacy (VInt 200)
                     search_fully_traced search_derivable eq_refl _)).
    left. eexists. reflexivity.
  - refine (proj2 (status_of_paired_response (env 16) (returning modern)
                     (instance (Some (traced_pin None))) search_args
                     search_kwargs modern (VInt 201)
                     search_fully_traced search_derivable eq_refl _)).
    right. do 2 eexists. split; reflexivity.
Defined.

Lemma failure_in_routine_witness :
  let timeout := MkExn TransportError 9 [VStr "N/A"; VStr "timed out"] [] in
  let run := _perform_request (env 16) (raising timeout)
               (instance (Some (traced_pin None))) search_args search_kwargs in
  let exhausted := _perform_request (env 16) (raising StopIteration)
               (instance (Some (traced_pin None))) search_args search_kwargs in
  snd run = Raise timeout
  /\ calls (fst run) = [(search_args, search_kwargs)]
  /\ Readings.span_exits (fst run) = [Some timeout]
  /\ tag_values STATUS_CODE (fst run) = [VInt 500]
  /\ count is_set_error (fst run) = 1
  /\ snd exhausted
     = Raise (MkExn (OtherException "RuntimeError") 0
                    [VStr "generator raised StopIteration"] [])
  /\ Readings.span_exits (fst exhausted) = [Some StopIteration].
Proof.
  intros timeout run exhausted.
  destruct (failure_in_routine (env 16) Sync (raising timeout)
              (instance (Some (traced_pin None))) search_args search_kwargs
              timeout search_fully_traced search_derivable eq_refl)
    as (_ & H1 & Ha & Hb & Hc & Hd).
  destruct (failure_in_routine (env 16) Sync (raising StopIteration)
              (instance (Some (traced_pin None))) search_args search_kwargs
              StopIteration search_fully_traced search_derivable eq_refl)
    as (H3 & _ & _ & H4 & _).
  exact (conj (H1 eq_refl) (conj Ha (conj Hb (conj Hc (conj Hd (conj H3 H4)))))).
Defined.

Lemma target_host_is_first_named_witness :
  tag_str_values TARGET_HOST
    (fst (_perform_request (env 16) (returning search_hits)
            (MkInstance (Some (traced_pin None)) [""; "10.0.0.7"; "10.0.0.8"]
                        simple_dumps)
            search_args search_kwargs))
  = [VStr "10.0.0.7"].
Proof.
  apply (target_host_is_first_named (env 16) Sync (returning search_hits)
           (MkInstance (Some (traced_pin None)) [""; "10.0.0.7"; "10.0.0.8"]
                       simple_dumps)
           search_args search_kwargs).
  - exists (traced_pin None). repeat split.
  - exists (VStr "GET"), (VStr "/my-index/_search"), "/my-index/_search", "".
    split; [reflexivity | split; [reflexivity | split]].
    + intros _. exists "q=foo". reflexivity.
    + intros _. exists "null". reflexivity.
Defined.

Lemma query_string_tag_witness :
  let E := MkEnv 16 "elasticsearch" "client" "elasticsearch" true VNone
             (fun _ => "elasticsearch") simple_urlparse simple_urlencode
             (fun host => host) (fun _ => None) in
  tag_str_values QUERY_STRING
    (fst (_perform_request E (returning search_hits)
            (instance (Some (traced_pin None))) search_args search_kwargs))
  = [VStr "q=foo"].
Proof.
  intros E.
  refine (eq_trans
            (query_string_tag E Sync (returning search_hits)
               (instance (Some (traced_pin None))) search_args search_kwargs
               _ _) _).
  - exists (traced_pin None). repeat split.
  - exists (VStr "GET"), (VStr "/my-index/_search"), "/my-index/_search", "".
    split; [reflexivity | split; [reflexivity | split]].
    + intros _. exists "q=foo". reflexivity.
    + intros _. exists "null". reflexivity.
  - reflexivity.
Defined.

Lemma adapters_agree_on_success_witness :
  snd (_perform_request_async (env 16) (Readings.asyncify (returning search_hits))
         (instance (Some (traced_pin None))) search_args search_kwargs)
  = snd (_perform_request (env 16) (returning search_hits)
           (instance (Some (traced_pin None))) search_args search_kwargs)
  /\ filter (fun ev => Readings.is_await ev = false)
       (fst (_perform_request_async (env 16)
               (Readings.asyncify (returning search_hits))
               (instance (Some (traced_pin None))) search_args search_kwargs))
     = fst (_perform_request (env 16) (returning search_hits)
              (instance (Some (traced_pin None))) search_args search_kwargs).
Proof.
  apply (adapters_agree_on_success (env 16) (returning search_hits)
           (instance (Some (traced_pin None))) search_args search_kwargs
           search_hits).
  reflexivity.
Defined.

(** ** The sampling short-circuit on concrete calls *)

Lemma sampling_short_circuit_witness :
  let run := _perform_request (env 16) (returning search_hits)
               (instance (Some (traced_pin (Some 0%Z))))
               search_args search_kwargs in
  let run_kept := _perform_request (env 16) (returning search_hits)
               (instance (Some (traced_pin None)))
               positional_headers_args search_kwargs in
  derivation_skipped (fst run)
  /\ count is_trace (fst run) = 1
  /\ calls (fst run) = [(search_args, search_kwargs)]
  /\ snd run = Return search_hits
  /\ count is_span_exit (fst run) = 1
  /\ ~ derivation_skipped (fst run_kept).
Proof.
  intros run run_kept.
  destruct (sampling_short_circuit (env 16) Sync (returning search_hits)
              (traced_pin (Some 0%Z)) (instance (Some (traced_pin (Some 0%Z))))
              search_args search_kwargs eq_refl eq_refl) as [_ H].
  destruct H as (H1 & H2 & H3 & H4 & H5).
  { exists 0%Z. split; [reflexivity | lia]. }
  destruct (sampling_short_circuit (env 16) Sync (returning search_hits)
              (traced_pin None) (instance (Some (traced_pin None)))
              positional_headers_args search_kwargs eq_refl eq_refl)
    as [[Hkept _] _].
  refine (conj H1 (conj H2 (conj H3 (conj (H4 _) (conj (H5 I) _))))).
  - intros e He. discriminate He.
  - intros Hs. destruct (Hkept Hs) as (p & Hp & _). discriminate Hp.
Defined.
